(** * Mern-Task-Manager: the auth controller and the task progress rule

    A shallow embedding of [backend/controllers/authController.js]
    (registerUser, loginUser, getUserProfile, updateUserProfile and their
    helpers) together with the statements of the repository's specification
    that concern it.

    Modelling conventions.
    - A JavaScript string is the list of its UTF-16 code units.  [trim] and
      the class [\s] use the white space of ECMAScript; [toLowerCase], whose
      Unicode tables are not written out here, is a parameter with the laws
      the proofs use.
    - A field of [req.body] is any JSON value or absent ([undefined]).  The
      handlers' own operators ([||], [!], [.trim()], [.length], [!==]) are
      modelled on every value, the [TypeError] of a call on a value without
      the method included.
    - [bcryptjs], [jsonwebtoken] and the Mongoose schema are not among the
      sources; they are parameters.  The clock that [jwt.sign] reads and the
      salt that [bcrypt.genSalt] draws are arguments of the handlers.
    - A handler runs in a monad that threads the user collection and may
      throw a JavaScript error; what was written before a throw stays
      written. *)

From Stdlib Require Import String Ascii List Bool Arith PeanoNat NArith ZArith Lia.
From Stdlib Require Import QArith Qround.
From Stdlib Require Import Floats.PrimFloat.
Import ListNotations.

#[local] Set Warnings "-register-all".

Local Close Scope Q_scope.
Local Open Scope nat_scope.
Local Open Scope list_scope.
Local Open Scope string_scope.

(* ------------------------------------------------------------------ *)
(** ** JavaScript strings *)

(** A string: its UTF-16 code units. *)
Definition jsstring : Type := list N.

(** The string a literal of the source denotes (the literals are ASCII). *)
Definition js (s : string) : jsstring := map N_of_ascii (list_ascii_of_string s).

Module JsString.

(** [a === b] on strings. *)
Fixpoint eqb (a b : jsstring) : bool :=
  match a, b with
  | [], [] => true
  | x :: a', y :: b' => N.eqb x y && eqb a' b'
  | _, _ => false
  end.

(** White space as [String.prototype.trim] and the class [\s] see it:
    TAB, LF, VT, FF, CR, SPACE, NBSP, U+1680, U+2000 to U+200A, the line and
    paragraph separators U+2028 and U+2029, U+202F, U+205F, U+3000, and the
    byte order mark U+FEFF. *)
Definition is_ws (c : N) : bool :=
  (N.leb 9 c && N.leb c 13)
  || N.eqb c 32 || N.eqb c 160 || N.eqb c 5760
  || (N.leb 8192 c && N.leb c 8202)
  || N.eqb c 8232 || N.eqb c 8233 || N.eqb c 8239 || N.eqb c 8287
  || N.eqb c 12288 || N.eqb c 65279.

Fixpoint trimStart (s : jsstring) : jsstring :=
  match s with
  | [] => []
  | c :: s' => if is_ws c then trimStart s' else s
  end.

Fixpoint trimEnd (s : jsstring) : jsstring :=
  match s with
  | [] => []
  | c :: s' =>
      match trimEnd s' with
      | [] => if is_ws c then [] else [c]
      | t => c :: t
      end
  end.

Definition trim (s : jsstring) : jsstring := trimEnd (trimStart s).

(** A string that does not begin with white space. *)
Definition starts_clean (s : jsstring) : Prop :=
  match s with
  | [] => True
  | c :: _ => is_ws c = false
  end.

(** [s.startsWith(t)] *)
Fixpoint prefix (t s : jsstring) : bool :=
  match t, s with
  | [], _ => true
  | x :: t', y :: s' => N.eqb x y && prefix t' s'
  | _ :: _, [] => false
  end.

(** [s.includes(t)] *)
Fixpoint includes (t s : jsstring) : bool :=
  prefix t s ||
  match s with
  | [] => false
  | _ :: s' => includes t s'
  end.

(** Truthiness of a string: every string but the empty one. *)
Definition truthy (s : jsstring) : bool :=
  match s with [] => false | _ => true end.

(** A string of white space only; the empty string is one. *)
Fixpoint all_ws (s : jsstring) : bool :=
  match s with
  | [] => true
  | c :: s' => is_ws c && all_ws s'
  end.

(** A string without white space. *)
Fixpoint no_ws (s : jsstring) : bool :=
  match s with
  | [] => true
  | c :: s' => negb (is_ws c) && no_ws s'
  end.

End JsString.

(* ------------------------------------------------------------------ *)
(** ** Anchored regular expressions over code units, matched by derivatives *)

Module Regex.

Inductive regex : Type :=
| Fail : regex
| Eps : regex
| Class : (N -> bool) -> regex
| Cat : regex -> regex -> regex
| Alt : regex -> regex -> regex
| Star : regex -> regex.

Definition Plus (r : regex) : regex := Cat r (Star r).

Fixpoint nullable (r : regex) : bool :=
  match r with
  | Fail => false
  | Eps => true
  | Class _ => false
  | Cat r1 r2 => nullable r1 && nullable r2
  | Alt r1 r2 => nullable r1 || nullable r2
  | Star _ => true
  end.

Fixpoint deriv (c : N) (r : regex) : regex :=
  match r with
  | Fail => Fail
  | Eps => Fail
  | Class p => if p c then Eps else Fail
  | Cat r1 r2 =>
      if nullable r1
      then Alt (Cat (deriv c r1) r2) (deriv c r2)
      else Cat (deriv c r1) r2
  | Alt r1 r2 => Alt (deriv c r1) (deriv c r2)
  | Star r1 => Cat (deriv c r1) (Star r1)
  end.

(** [/^r$/.test(s)] *)
Fixpoint test (r : regex) (s : jsstring) : bool :=
  match s with
  | [] => nullable r
  | c :: s' => test (deriv c r) s'
  end.

(** [\S] *)
Definition non_ws : regex := Class (fun c => negb (JsString.is_ws c)).

(** A literal character of the pattern. *)
Definition lit (a : ascii) : regex := Class (N.eqb (N_of_ascii a)).

(** [/^\S+@\S+\.\S+$/] *)
Definition email_re : regex :=
  Cat (Plus non_ws)
      (Cat (lit "@") (Cat (Plus non_ws) (Cat (lit ".") (Plus non_ws)))).

End Regex.

(* ------------------------------------------------------------------ *)
(** ** JavaScript values and errors *)

(** A value of a parsed JSON body. *)
Inductive jsval : Type :=
| VNull : jsval
| VBool : bool -> jsval
| VNum : float -> jsval
| VStr : jsstring -> jsval
| VArr : list jsval -> jsval
| VObj : list (jsstring * jsval) -> jsval.

(** Truthiness: [null], [false], [0], [-0], [NaN] and the empty string are
    falsy, everything else is truthy. *)
Definition truthy_val (v : jsval) : bool :=
  match v with
  | VNull => false
  | VBool b => b
  | VNum x => negb (PrimFloat.eqb x PrimFloat.zero || PrimFloat.is_nan x)
  | VStr s => JsString.truthy s
  | VArr _ => true
  | VObj _ => true
  end.

(** Truthiness of a value that may be [undefined]. *)
Definition truthy_opt (o : option jsval) : bool :=
  match o with Some v => truthy_val v | None => false end.

(** [o || ""] *)
Definition or_empty (o : option jsval) : jsval :=
  match o with
  | Some v => if truthy_val v then v else VStr []
  | None => VStr []
  end.

(** The own property [k] of an object literal; the last binding wins. *)
Fixpoint obj_get (k : jsstring) (o : list (jsstring * jsval)) : option jsval :=
  match o with
  | [] => None
  | (k', v) :: o' =>
      match obj_get k o' with
      | Some w => Some w
      | None => if JsString.eqb k' k then Some v else None
      end
  end.

(** The three properties of a thrown error the handlers inspect; [err_code]
    is [None] when [err.code] is not a number. *)
Record JsError : Type := mkJsError {
  err_code : option Z;
  err_name : jsstring;
  err_message : jsstring
}.

(** [new Error(msg)] *)
Definition Error (msg : string) : JsError :=
  {| err_code := None; err_name := js "Error"; err_message := js msg |}.

(** The [TypeError] of a call or property access the value does not allow. *)
Definition TypeError (msg : string) : JsError :=
  {| err_code := None; err_name := js "TypeError"; err_message := js msg |}.

(** A member of a response body: a string the handler built, a document
    identifier, or a stored value passed through. *)
Inductive jsonval : Type :=
| JString : jsstring -> jsonval
| JObjectId : nat -> jsonval
| JValue : jsval -> jsonval.

(** An object literal: its keys in insertion order. *)
Definition jsobject : Type := list (string * jsonval).

(** What [res.status(n).json(o)] sends. *)
Record Response : Type := mkResponse {
  status : nat;
  json : jsobject
}.

(** A document of the [users] collection. *)
Module User.
Record t : Type := mk {
  _id : nat;
  name : jsstring;
  email : jsstring;
  password : jsstring;
  profileImageUrl : jsval;
  role : jsstring
}.
End User.

(** The collection, in insertion order. *)
Definition Store : Type := list User.t.

(** [process.env], as far as the controller reads it. *)
Record Env : Type := mkEnv {
  JWT_SECRET : option jsstring;
  ADMIN_INVITE_TOKEN : option jsstring
}.

(** [req.body] of the three routes: the five members the handlers read. *)
Module Body.
Record t : Type := mk {
  name : option jsval;
  email : option jsval;
  password : option jsval;
  profileImageUrl : option jsval;
  adminInviteToken : option jsval
}.
End Body.

(** A code unit of the ASCII range that is not a capital letter. *)
Definition plain_unit (c : N) : bool :=
  N.ltb c 65 || (N.ltb 90 c && N.ltb c 128).

(** What the controller only calls.
    - [toLowerCase] is [String.prototype.toLowerCase]; its laws: lower-casing
      twice is lower-casing once, the empty string stays empty, lower-casing
      neither makes nor removes white space at the ends, and a string of
      ASCII characters without capital letters is left as it is.
    - [less_than v n] is the comparison [v < n] for a value [v] read from a
      JSON object.
    - [bcrypt_hash] and [bcrypt_compare] are [bcryptjs] on strings;
      [bcrypt_reject v] is the error with which both reject a value that is
      not a string.
    - [jwt_sign id secret expiresIn now] is [jwt.sign({ id }, secret,
      { expiresIn })] called when the clock reads [now].
    - [cast_image v] is what the schema makes of a [profileImageUrl] that is
      not a string: the value stored, or the validation error. *)
Class Externals : Type := {
  toLowerCase : jsstring -> jsstring;
  toLowerCase_idem : forall s, toLowerCase (toLowerCase s) = toLowerCase s;
  toLowerCase_nil : toLowerCase [] = [];
  toLowerCase_trim : forall s,
    JsString.trim (toLowerCase s) = toLowerCase (JsString.trim s);
  toLowerCase_plain : forall s, forallb plain_unit s = true -> toLowerCase s = s;
  less_than : jsval -> nat -> bool;
  bcrypt_hash : jsstring -> jsstring -> jsstring;
  bcrypt_compare : jsstring -> jsstring -> bool;
  bcrypt_reject : jsval -> JsError;
  jwt_sign : nat -> jsstring -> jsstring -> Z -> jsstring;
  cast_image : jsval -> JsError + jsval
}.

(** *** The handler monad: the collection is threaded, an error may be
        thrown, and a throw keeps the collection as it was at that point. *)

Definition M (A : Type) : Type := Store -> Store * (JsError + A).

Definition ret {A : Type} (a : A) : M A := fun st => (st, inr a).

Definition throw {A : Type} (e : JsError) : M A := fun st => (st, inl e).

Definition bind {A B : Type} (m : M A) (k : A -> M B) : M B :=
  fun st =>
    match m st with
    | (st', inl e) => (st', inl e)
    | (st', inr a) => k a st'
    end.

Definition lift {A : Type} (r : JsError + A) : M A := fun st => (st, r).

Definition query {A : Type} (f : Store -> A) : M A := fun st => (st, inr (f st)).

Notation "x <- m ;; k" := (bind m (fun x => k))
  (at level 61, m at next level, right associativity).

(** [try { body } catch (err) { handler }], both ending in a response. *)
Definition try_catch (body : M Response) (handler : JsError -> Response)
  : Store -> Store * Response :=
  fun st =>
    match body st with
    | (st', inr r) => (st', r)
    | (st', inl e) => (st', handler e)
    end.

(* ------------------------------------------------------------------ *)
(** ** The User model *)

Module UserModel.

(** Modelled from the spec: [models/User.js] is not among the sources.  The
    specification gives a user an identifier, name, email, password hash,
    role and profile image reference, and has email uniqueness enforced at
    write time; the controller's own [err.code === 11000] branches expect the
    duplicate-key error of a unique index on [email].  Of the schema's
    validation only the cast of [profileImageUrl] is kept, as a parameter:
    the other members are strings the handlers have checked before they
    write. *)
Definition E11000 : JsError :=
  {| err_code := Some 11000%Z;
     err_name := js "MongoServerError";
     err_message := js "E11000 duplicate key error collection: users index: email_1" |}.

(** [User.exists({ email })] *)
Definition exists_email (e : jsstring) (st : Store) : bool :=
  existsb (fun u => JsString.eqb (User.email u) e) st.

(** [User.exists({ _id: { $ne: id }, email })] *)
Definition exists_other (id : nat) (e : jsstring) (st : Store) : bool :=
  existsb (fun u => negb (Nat.eqb (User._id u) id) && JsString.eqb (User.email u) e) st.

(** [User.findOne({ email })] *)
Definition findOne (e : jsstring) (st : Store) : option User.t :=
  find (fun u => JsString.eqb (User.email u) e) st.

(** [User.findById(id)] *)
Definition findById (id : nat) (st : Store) : option User.t :=
  find (fun u => Nat.eqb (User._id u) id) st.

(** A fresh identifier. *)
Definition fresh_id (st : Store) : nat := S (list_max (map User._id st)).

(** Modelled from the spec: what the schema stores for a [profileImageUrl]:
    a string as it is, any other value as [cast_image] decides. *)
Definition store_image `{Externals} (v : jsval) : JsError + jsval :=
  match v with
  | VStr s => inr (VStr s)
  | _ => cast_image v
  end.

(** Modelled from the spec: [User.create({ name, email, password,
    profileImageUrl, role })] of the absent [models/User.js]: validation
    first, then the insert under the unique index on [email]; the new
    document is appended with a fresh identifier. *)
Definition create `{Externals} (n e p : jsstring) (img : jsval) (r : jsstring)
  : M User.t :=
  fun st =>
    match store_image img with
    | inl err => (st, inl err)
    | inr img' =>
        if exists_email e st then (st, inl E11000)
        else
          let u := User.mk (fresh_id st) n e p img' r in
          ((st ++ [u])%list, inr u)
    end.

(** A document loaded from the collection and assigned to: its members, and
    the validation error an assignment has left pending, if any. *)
Record Doc : Type := mkDoc {
  members : User.t;
  invalid : option JsError
}.

(** Modelled from the spec: [user.profileImageUrl = v]; a value the schema
    cannot cast leaves the member as it was and its error pending. *)
Definition set_image `{Externals} (v : jsval) (d : Doc) : Doc :=
  match store_image v with
  | inr img =>
      mkDoc (User.mk (User._id (members d)) (User.name (members d))
               (User.email (members d)) (User.password (members d)) img
               (User.role (members d)))
            (invalid d)
  | inl err => mkDoc (members d) (Some err)
  end.

(** Modelled from the spec: [user.save()] of the absent [models/User.js]:
    validation first, then the write under the unique index on [email]. *)
Definition save (d : Doc) : M User.t :=
  fun st =>
    match invalid d with
    | Some err => (st, inl err)
    | None =>
        let u := members d in
        if exists_other (User._id u) (User.email u) st then (st, inl E11000)
        else
          (map (fun v => if Nat.eqb (User._id v) (User._id u) then u else v) st,
           inr u)
    end.

End UserModel.

(* ------------------------------------------------------------------ *)
(** ** authController.js *)

Section Controller.

Context {ext : Externals}.

(** [x.trim()] for the expression [x] of value [v]. *)
Definition call_trim (x : string) (v : jsval) : JsError + jsstring :=
  match v with
  | VStr s => inr (JsString.trim s)
  | VNull => inl (TypeError "Cannot read properties of null (reading 'trim')")
  | _ => inl (TypeError (x ++ ".trim is not a function"))
  end.

(** The text of the expression [(name || <empty string>)], as the engine
    quotes it in an error message. *)
Definition name_or_empty : string :=
  "(name || " ++ String (ascii_of_nat 34) (String (ascii_of_nat 34) ")").

(** [v.length < n] for a value [v] *)
Definition length_lt (v : jsval) (n : nat) : JsError + bool :=
  match v with
  | VStr s => inr (Nat.ltb (List.length s) n)
  | VArr l => inr (Nat.ltb (List.length l) n)
  | VObj o =>
      inr (match obj_get (js "length") o with
           | Some w => less_than w n
           | None => false
           end)
  | VBool _ => inr false
  | VNum _ => inr false
  | VNull => inl (TypeError "Cannot read properties of null (reading 'length')")
  end.

(** [await bcrypt.hash(v, salt)] *)
Definition hash_value (v : jsval) (salt : jsstring) : JsError + jsstring :=
  match v with
  | VStr p => inr (bcrypt_hash p salt)
  | _ => inl (bcrypt_reject v)
  end.

(** [await bcrypt.compare(v, hash)] *)
Definition compare_value (v : jsval) (hash : jsstring) : JsError + bool :=
  match v with
  | VStr p => inr (bcrypt_compare p hash)
  | _ => inl (bcrypt_reject v)
  end.

(** [(e = "") => e.trim().toLowerCase()] *)
Definition normalizeEmail (e : option jsval) : JsError + jsstring :=
  match call_trim "e" (match e with Some v => v | None => VStr [] end) with
  | inl err => inl err
  | inr t => inr (toLowerCase t)
  end.

Definition hasJwtSecret (env : Env) : bool :=
  match JWT_SECRET env with Some s => JsString.truthy s | None => false end.

(** [now] is what the clock reads when [jwt.sign] is called. *)
Definition generateToken (env : Env) (now : Z) (userId : nat) : JsError + jsstring :=
  if negb (hasJwtSecret env) then inl (Error "JWT_SECRET not set")
  else inr (jwt_sign userId
              (match JWT_SECRET env with Some s => s | None => [] end)
              (js "7d") now).

Definition sendUser (env : Env) (now : Z) (user : User.t) : JsError + jsobject :=
  match generateToken env now (User._id user) with
  | inl e => inl e
  | inr tok =>
      inr [ ("_id", JObjectId (User._id user));
            ("name", JString (User.name user));
            ("email", JString (User.email user));
            ("role", JString (User.role user));
            ("profileImageUrl", JValue (User.profileImageUrl user));
            ("token", JString tok) ]
  end.

(** [res.status(n).json({ code, message })] *)
Definition reply_with (n : nat) (code : string) (message : jsstring) : Response :=
  mkResponse n [ ("code", JString (js code)); ("message", JString message) ].

Definition reply (n : nat) (code message : string) : Response :=
  reply_with n code (js message).

(** [a === b] for a body value [a] and an environment variable [b]. *)
Definition strict_eq (a : option jsval) (b : option jsstring) : bool :=
  match a, b with
  | Some (VStr x), Some y => JsString.eqb x y
  | None, None => true
  | _, _ => false
  end.

(** The [try] block of [registerUser]; [salt] is what [bcrypt.genSalt(10)]
    draws for this request. *)
Definition registerUser_try (env : Env) (salt : jsstring) (now : Z) (b : Body.t)
  : M Response :=
  name <- lift (call_trim name_or_empty (or_empty (Body.name b))) ;;
  email <- lift (normalizeEmail (Body.email b)) ;;
  let password := or_empty (Body.password b) in
  let adminInviteToken := Body.adminInviteToken b in
  if negb (JsString.truthy name) || negb (JsString.truthy email)
     || negb (truthy_val password) then
    ret (reply 400 "MISSING_FIELDS" "Name, email and password are required")
  else if negb (Regex.test Regex.email_re email) then
    ret (reply 400 "BAD_EMAIL" "Email format is invalid")
  else
    weak <- lift (length_lt password 6) ;;
    if (weak : bool) then
      ret (reply 400 "WEAK_PASSWORD" "Password must be at least 6 characters")
    else if truthy_opt adminInviteToken
            && negb (strict_eq adminInviteToken (ADMIN_INVITE_TOKEN env)) then
      ret (reply 403 "BAD_INVITE" "Invalid admin invite token")
    else
      existing <- query (UserModel.exists_email email) ;;
      if (existing : bool) then
        ret (reply 409 "DUP_EMAIL" "Email already registered")
      else
        hashedPassword <- lift (hash_value password salt) ;;
        let role :=
          if truthy_opt adminInviteToken
             && strict_eq adminInviteToken (ADMIN_INVITE_TOKEN env)
          then js "admin" else js "member" in
        user <- UserModel.create name email hashedPassword
                  (or_empty (Body.profileImageUrl b)) role ;;
        payload <- lift (sendUser env now user) ;;
        ret (mkResponse 201 payload).

Definition registerUser_catch (err : JsError) : Response :=
  if match err_code err with Some c => Z.eqb c 11000 | None => false end then
    reply 409 "DUP_EMAIL" "Email already registered"
  else if JsString.eqb (err_name err) (js "ValidationError") then
    reply_with 400 "VALIDATION" (err_message err)
  else if JsString.truthy (err_message err)
          && JsString.includes (js "JWT_SECRET") (err_message err) then
    reply 500 "NO_JWT_SECRET" "Server misconfigured: JWT_SECRET not set"
  else
    reply 500 "SERVER" "Server error".

Definition registerUser (env : Env) (salt : jsstring) (now : Z) (b : Body.t)
  : Store -> Store * Response :=
  try_catch (registerUser_try env salt now b) registerUser_catch.

Definition loginUser_try (env : Env) (now : Z) (b : Body.t) : M Response :=
  email <- lift (normalizeEmail (Body.email b)) ;;
  let password := or_empty (Body.password b) in
  if negb (JsString.truthy email) || negb (truthy_val password) then
    ret (reply 400 "MISSING_FIELDS" "Email and password are required")
  else
    found <- query (UserModel.findOne email) ;;
    match found with
    | None => ret (reply 401 "BAD_CREDENTIALS" "Invalid email or password")
    | Some user =>
        isMatch <- lift (compare_value password (User.password user)) ;;
        if negb isMatch then
          ret (reply 401 "BAD_CREDENTIALS" "Invalid email or password")
        else
          payload <- lift (sendUser env now user) ;;
          ret (mkResponse 200 payload)
    end.

Definition loginUser_catch (err : JsError) : Response :=
  if JsString.truthy (err_message err)
     && JsString.includes (js "JWT_SECRET") (err_message err) then
    reply 500 "NO_JWT_SECRET" "Server misconfigured: JWT_SECRET not set"
  else
    reply 500 "SERVER" "Server error".

Definition loginUser (env : Env) (now : Z) (b : Body.t) : Store -> Store * Response :=
  try_catch (loginUser_try env now b) loginUser_catch.

(** Modelled from the spec: what [res.json] sends for a document loaded with
    [.select("-password")].  The schema of [models/User.js] is not among the
    sources; the members are those the specification gives a user, the
    password hash left out. *)
Definition profile_json (user : User.t) : jsobject :=
  [ ("_id", JObjectId (User._id user));
    ("name", JString (User.name user));
    ("email", JString (User.email user));
    ("profileImageUrl", JValue (User.profileImageUrl user));
    ("role", JString (User.role user)) ].

(** The [try] block of [getUserProfile]; [userId] is [req.user.id]. *)
Definition getUserProfile_try (userId : nat) : M Response :=
  found <- query (UserModel.findById userId) ;;
  match found with
  | None => ret (reply 404 "NOT_FOUND" "User not found")
  | Some user => ret (mkResponse 200 (profile_json user))
  end.

Definition getUserProfile_catch (err : JsError) : Response :=
  reply 500 "SERVER" "Server error".

Definition getUserProfile (userId : nat) : Store -> Store * Response :=
  try_catch (getUserProfile_try userId) getUserProfile_catch.

(** [user.name = s], [user.email = s], [user.password = s] on the loaded
    document. *)
Definition set_name (s : jsstring) (d : UserModel.Doc) : UserModel.Doc :=
  let u := UserModel.members d in
  UserModel.mkDoc
    (User.mk (User._id u) s (User.email u) (User.password u)
       (User.profileImageUrl u) (User.role u))
    (UserModel.invalid d).

Definition set_email (s : jsstring) (d : UserModel.Doc) : UserModel.Doc :=
  let u := UserModel.members d in
  UserModel.mkDoc
    (User.mk (User._id u) (User.name u) s (User.password u)
       (User.profileImageUrl u) (User.role u))
    (UserModel.invalid d).

Definition set_password (s : jsstring) (d : UserModel.Doc) : UserModel.Doc :=
  let u := UserModel.members d in
  UserModel.mkDoc
    (User.mk (User._id u) (User.name u) (User.email u) s
       (User.profileImageUrl u) (User.role u))
    (UserModel.invalid d).

(** Lines 150 to 152 of [updateUserProfile]: the assignments of [name],
    [email] and [profileImageUrl] to the loaded document. *)
Definition assign_fields (b : Body.t) (user : User.t) : JsError + UserModel.Doc :=
  let d0 := UserModel.mkDoc user None in
  match
    (if truthy_opt (Body.name b)
     then match call_trim "req.body.name" (or_empty (Body.name b)) with
          | inl err => inl err
          | inr n => inr (set_name n d0)
          end
     else inr d0)
  with
  | inl err => inl err
  | inr d1 =>
      match
        (if truthy_opt (Body.email b)
         then match normalizeEmail (Body.email b) with
              | inl err => inl err
              | inr e => inr (set_email e d1)
              end
         else inr d1)
      with
      | inl err => inl err
      | inr d2 =>
          inr (match Body.profileImageUrl b with
               | Some img => UserModel.set_image img d2
               | None => d2
               end)
      end
  end.

(** The [try] block of [updateUserProfile]; [userId] is [req.user.id]. *)
Definition updateUserProfile_try (env : Env) (salt : jsstring) (now : Z)
  (userId : nat) (b : Body.t) : M Response :=
  found <- query (UserModel.findById userId) ;;
  match found with
  | None => ret (reply 404 "NOT_FOUND" "User not found")
  | Some user0 =>
      user <- lift (assign_fields b user0) ;;
      weak <- lift (if truthy_opt (Body.password b)
                    then length_lt (or_empty (Body.password b)) 6
                    else inr false) ;;
      if (weak : bool) then
        ret (reply 400 "WEAK_PASSWORD" "Password must be at least 6 characters")
      else
        user <- lift (if truthy_opt (Body.password b)
                      then match hash_value (or_empty (Body.password b)) salt with
                           | inl err => inl err
                           | inr h => inr (set_password h user)
                           end
                      else inr user) ;;
        conflict <- query (fun st =>
                      truthy_opt (Body.email b)
                      && UserModel.exists_other
                           (User._id (UserModel.members user))
                           (User.email (UserModel.members user)) st) ;;
        if (conflict : bool) then
          ret (reply 409 "DUP_EMAIL" "Email already registered")
        else
          updated <- UserModel.save user ;;
          payload <- lift (sendUser env now updated) ;;
          ret (mkResponse 200 payload)
  end.

Definition updateUserProfile_catch (err : JsError) : Response :=
  if match err_code err with Some c => Z.eqb c 11000 | None => false end then
    reply 409 "DUP_EMAIL" "Email already registered"
  else
    reply 500 "SERVER" "Server error".

Definition updateUserProfile (env : Env) (salt : jsstring) (now : Z)
  (userId : nat) (b : Body.t) : Store -> Store * Response :=
  try_catch (updateUserProfile_try env salt now userId b) updateUserProfile_catch.

End Controller.

(* ------------------------------------------------------------------ *)
(** ** Vocabulary of the specification, phrased on the embedding *)

Section Vocabulary.

Context {ext : Externals}.

(** A member of the body is a string or absent. *)
Definition string_or_absent (o : option jsval) : bool :=
  match o with
  | None => true
  | Some (VStr _) => true
  | Some _ => false
  end.

(** The string a member holds (the empty string where it holds none). *)
Definition str_of (o : option jsval) : jsstring :=
  match o with
  | Some (VStr s) => s
  | _ => []
  end.

(** Every member the handlers read is a string or absent. *)
Definition strings_or_absent (b : Body.t) : bool :=
  string_or_absent (Body.name b)
  && string_or_absent (Body.email b)
  && string_or_absent (Body.password b)
  && string_or_absent (Body.profileImageUrl b)
  && string_or_absent (Body.adminInviteToken b).

(** The name and the email [registerUser] works with, once trimmed and
    normalised (the empty string where the call throws). *)
Definition reg_name (b : Body.t) : jsstring :=
  match call_trim name_or_empty (or_empty (Body.name b)) with
  | inr n => n
  | inl _ => []
  end.

Definition reg_email (b : Body.t) : jsstring :=
  match normalizeEmail (Body.email b) with
  | inr e => e
  | inl _ => []
  end.

(** The field checks of [registerUser], taken together: the name and the
    email can be trimmed, name, email and password are present, the email is
    well formed, the password is long enough. *)
Definition register_fields_ok (b : Body.t) : bool :=
  match call_trim name_or_empty (or_empty (Body.name b)),
        normalizeEmail (Body.email b),
        length_lt (or_empty (Body.password b)) 6 with
  | inr n, inr e, inr weak =>
      JsString.truthy n && JsString.truthy e
      && truthy_val (or_empty (Body.password b))
      && Regex.test Regex.email_re e
      && negb weak
  | _, _, _ => false
  end.

(** An invite token counts as supplied when the handler's own test sees it:
    present and truthy. *)
Definition token_supplied (b : Body.t) : bool :=
  truthy_opt (Body.adminInviteToken b).

(** The supplied token is exactly the configured secret. *)
Definition token_matches (env : Env) (b : Body.t) : bool :=
  strict_eq (Body.adminInviteToken b) (ADMIN_INVITE_TOKEN env).

(** A login request carries both credentials. *)
Definition credentials_supplied (b : Body.t) : bool :=
  match normalizeEmail (Body.email b) with
  | inr e => JsString.truthy e && truthy_val (or_empty (Body.password b))
  | inl _ => false
  end.



(** The members of a response body. *)
Definition member (k : string) (o : jsobject) : option jsonval :=
  match find (fun kv => String.eqb (fst kv) k) o with
  | Some kv => Some (snd kv)
  | None => None
  end.

Definition code_of (r : Response) : option jsonval := member "code" (json r).

Definition keys (o : jsobject) : list string := map fst o.

(** A new password is too short for [updateUserProfile]. *)
Definition weak_password (b : Body.t) : bool :=
  truthy_opt (Body.password b)
  && match length_lt (or_empty (Body.password b)) 6 with
     | inr weak => weak
     | inl _ => false
     end.

(** The new email of a profile update is the stored email of another user. *)
Definition email_taken (userId : nat) (b : Body.t) (st : Store) : bool :=
  truthy_opt (Body.email b)
  && UserModel.exists_other userId (reg_email b) st.

(** The document [registerUser] hands to [User.create], as it is stored. *)
Definition new_user (env : Env) (salt : jsstring) (b : Body.t) (st : Store) : User.t :=
  User.mk (UserModel.fresh_id st)
    (reg_name b)
    (reg_email b)
    (match hash_value (or_empty (Body.password b)) salt with
     | inr h => h
     | inl _ => []
     end)
    (match UserModel.store_image (or_empty (Body.profileImageUrl b)) with
     | inr img => img
     | inl _ => VNull
     end)
    (if token_supplied b && token_matches env b then js "admin" else js "member").

(** The loaded document after the assignments of [updateUserProfile],
    the new password hash included. *)
Definition update_doc (salt : jsstring) (b : Body.t) (user : User.t)
  : JsError + UserModel.Doc :=
  match assign_fields b user with
  | inl err => inl err
  | inr d =>
      if truthy_opt (Body.password b)
      then match hash_value (or_empty (Body.password b)) salt with
           | inl err => inl err
           | inr h => inr (set_password h d)
           end
      else inr d
  end.

(** The document [updateUserProfile] hands to [save] (the user as loaded
    where an assignment throws). *)
Definition updated_user (salt : jsstring) (b : Body.t) (user : User.t) : User.t :=
  match update_doc salt b user with
  | inr d => UserModel.members d
  | inl _ => user
  end.

(** The collection after [doc] has been saved over its earlier version. *)
Definition overwrite (doc : User.t) (st : Store) : Store :=
  map (fun v => if Nat.eqb (User._id v) (User._id doc) then doc else v) st.

(** What a handler answers when the body it built is [sendUser]'s. *)
Definition answer (ok : nat) (handler : JsError -> Response)
  (r : JsError + jsobject) : Response :=
  match r with
  | inr payload => mkResponse ok payload
  | inl err => handler err
  end.

(** The collections the handlers can produce from the empty one. *)
Inductive reachable : Store -> Prop :=
| reach_empty : reachable []
| reach_register : forall env salt now b st,
    reachable st -> reachable (fst (registerUser env salt now b st))
| reach_login : forall env now b st,
    reachable st -> reachable (fst (loginUser env now b st))
| reach_update : forall env salt now userId b st,
    reachable st -> reachable (fst (updateUserProfile env salt now userId b st)).

(** What every reachable collection satisfies: identifiers are distinct, an
    email names one identifier, and emails are stored normalised. *)
Definition distinct_ids (st : Store) : Prop := NoDup (map User._id st).

Definition email_unique (st : Store) : Prop :=
  forall u v, In u st -> In v st -> User.email u = User.email v ->
              User._id u = User._id v.

Definition emails_normalised (st : Store) : Prop :=
  forall u, In u st ->
    normalizeEmail (Some (VStr (User.email u))) = inr (User.email u).

Definition store_ok (st : Store) : Prop :=
  distinct_ids st /\ email_unique st /\ emails_normalised st.

(** The strings a regular expression denotes. *)
Inductive matches : Regex.regex -> jsstring -> Prop :=
| matches_eps : matches Regex.Eps []
| matches_class : forall (p : N -> bool) c,
    p c = true -> matches (Regex.Class p) [c]
| matches_cat : forall r1 r2 s1 s2,
    matches r1 s1 -> matches r2 s2 -> matches (Regex.Cat r1 r2) (s1 ++ s2)%list
| matches_alt_l : forall r1 r2 s,
    matches r1 s -> matches (Regex.Alt r1 r2) s
| matches_alt_r : forall r1 r2 s,
    matches r2 s -> matches (Regex.Alt r1 r2) s
| matches_star_nil : forall r, matches (Regex.Star r) []
| matches_star_app : forall r s1 s2,
    matches r s1 -> matches (Regex.Star r) s2 ->
    matches (Regex.Star r) (s1 ++ s2)%list.

(** What [/^\S+@\S+\.\S+$/] asks of a string: three non-empty parts without
    white space, joined by an at sign and a dot. *)
Definition email_shaped (s : jsstring) : Prop :=
  exists a b c,
    s = (a ++ js "@" ++ b ++ js "." ++ c)%list /\
    a <> [] /\ b <> [] /\ c <> [] /\
    JsString.no_ws a = true /\ JsString.no_ws b = true /\ JsString.no_ws c = true.

End Vocabulary.

(* ------------------------------------------------------------------ *)
(** ** Task progress *)

Module Task.

(** Modelled from the spec: [models/Task.js] is not among the sources.  A
    checklist item has a text and a done flag. *)
Record ChecklistItem : Type := mkItem {
  text : jsstring;
  done : bool
}.

(** Modelled from the spec: the three states of a task. *)
Inductive Status : Type := pending | in_progress | completed.

(** Modelled from the spec: of a task, the ordered checklist, the progress
    percentage and the status. *)
Record t : Type := mk {
  todoChecklist : list ChecklistItem;
  progress : Z;
  status : Status
}.

Definition doneCount (items : list ChecklistItem) : nat :=
  length (filter done items).

(** Rounding to the nearest integer, a half going up, as [Math.round]. *)
Definition round (q : Q) : Z := Qfloor (Qplus q (Qmake 1 2)).

(** Modelled from the spec: the task controller is not among the sources.
    Progress is (done items / all items) x 100, rounded, and 0 for an empty
    checklist. *)
Definition progress_of (items : list ChecklistItem) : Z :=
  match length items with
  | O => 0%Z
  | S _ =>
      round (Qmult (Qdiv (inject_Z (Z.of_nat (doneCount items)))
                         (inject_Z (Z.of_nat (length items))))
                   (inject_Z 100))
  end.

(** Modelled from the spec: [updateChecklist] stores the supplied items,
    recomputes progress from them, advances the status to completed when
    progress is 100 and otherwise has it in progress. *)
Definition updateChecklist (task : t) (items : list ChecklistItem) : t :=
  let p := progress_of items in
  mk items p (if Z.eqb p 100 then completed else in_progress).

(** Modelled from the spec: a new task has the checklist it is given,
    progress 0 and status pending. *)
Definition createTask (items : list ChecklistItem) : t := mk items 0%Z pending.

End Task.

(* ------------------------------------------------------------------ *)
(** ** A concrete world to run the handlers in *)

Module Demo.

(** A stand-in for [toLowerCase]: the letters A to Z and the capital letters
    of Latin-1, code unit by code unit. *)
Definition lower_unit (c : N) : N :=
  if (N.leb 65 c && N.leb c 90)
     || (N.leb 192 c && N.leb c 222 && negb (N.eqb c 215))
  then (c + 32)%N else c.

Definition lower (s : jsstring) : jsstring := map lower_unit s.

(** What follows the first [$] of a string. *)
Fixpoint after_dollar (s : jsstring) : jsstring :=
  match s with
  | [] => []
  | c :: s' => if N.eqb c 36 then s' else after_dollar s'
  end.

(** Stand-ins for the libraries: the "hash" is salt, [$], password; the
    "token" is the secret and the time of signing; the schema casts no value
    that is not a string, and keeps [null]. *)
#[export] Instance externals : Externals.
Proof.
  assert (forall c, JsString.is_ws (lower_unit c) = JsString.is_ws c) as Hws.
  { intros c. unfold lower_unit.
    destruct ((N.leb 65 c && N.leb c 90)
              || (N.leb 192 c && N.leb c 222 && negb (N.eqb c 215))) eqn:R;
      [|reflexivity].
    assert ((65 <= c <= 90)%N \/ (192 <= c <= 222)%N) as Hr.
    { apply orb_true_iff in R. destruct R as [R|R].
      - apply andb_true_iff in R. destruct R as [A B].
        apply N.leb_le in A, B. left. lia.
      - apply andb_true_iff in R. destruct R as [R _].
        apply andb_true_iff in R. destruct R as [A B].
        apply N.leb_le in A, B. right. lia. }
    assert (forall x, (33 <= x <= 159)%N \/ (161 <= x <= 5759)%N ->
                      JsString.is_ws x = false) as Hno.
    { intros x Hx. unfold JsString.is_ws.
      repeat (apply orb_false_intro);
        try (apply N.eqb_neq; lia);
        apply andb_false_iff;
        try (left; apply N.leb_gt; lia);
        right; apply N.leb_gt; lia. }
    rewrite !Hno by lia. reflexivity. }
  assert (forall c, lower_unit (lower_unit c) = lower_unit c) as Hidem.
  { intros c. unfold lower_unit.
    destruct ((N.leb 65 c && N.leb c 90)
              || (N.leb 192 c && N.leb c 222 && negb (N.eqb c 215))) eqn:R;
      [|now rewrite R].
    assert ((97 <= c + 32 <= 122)%N \/ (224 <= c + 32 <= 254)%N) as Hr.
    { apply orb_true_iff in R. destruct R as [R|R].
      - apply andb_true_iff in R. destruct R as [A B].
        apply N.leb_le in A, B. left. lia.
      - apply andb_true_iff in R. destruct R as [R _].
        apply andb_true_iff in R. destruct R as [A B].
        apply N.leb_le in A, B. right. lia. }
    assert ((N.leb 65 (c + 32) && N.leb (c + 32) 90)
            || (N.leb 192 (c + 32) && N.leb (c + 32) 222
                && negb (N.eqb (c + 32) 215)) = false) as ->; [|reflexivity].
    apply orb_false_intro; apply andb_false_iff.
    - right. apply N.leb_gt. lia.
    - left. apply andb_false_iff.
      destruct Hr as [Hr|Hr]; [left | right]; apply N.leb_gt; lia. }
  assert (forall s, JsString.trimStart (lower s) = lower (JsString.trimStart s))
    as Hstart.
  { induction s as [|c s IH]; simpl; [reflexivity|].
    rewrite Hws. destruct (JsString.is_ws c); [exact IH | reflexivity]. }
  assert (forall s, JsString.trimEnd (lower s) = lower (JsString.trimEnd s))
    as Hend.
  { induction s as [|c s IH]; simpl; [reflexivity|].
    rewrite IH, Hws.
    destruct (JsString.trimEnd s); simpl;
      [destruct (JsString.is_ws c)|]; reflexivity. }
  refine {|
    toLowerCase := lower;
    less_than := fun _ _ => false;
    bcrypt_hash := fun p salt => (salt ++ js "$" ++ p)%list;
    bcrypt_compare := fun p h => JsString.eqb (after_dollar h) p;
    bcrypt_reject := fun _ => Error "Illegal arguments";
    jwt_sign := fun _ secret expiresIn now =>
                  (js "jwt." ++ secret ++ js "." ++ expiresIn
                   ++ js "@" ++ [Z.to_N now])%list;
    cast_image := fun v =>
                    match v with
                    | VNull => inr VNull
                    | _ => inl {| err_code := None;
                                  err_name := js "ValidationError";
                                  err_message := js "Cast to string failed" |}
                    end
  |}.
  - intros s. unfold lower. rewrite map_map. apply map_ext. exact Hidem.
  - reflexivity.
  - intros s. unfold JsString.trim. now rewrite Hstart, Hend.
  - induction s as [|c s IH]; simpl; [reflexivity|].
    intros P. apply andb_true_iff in P. destruct P as [Pc Ps].
    rewrite (IH Ps). f_equal. unfold lower_unit, plain_unit in *.
    assert ((N.leb 65 c && N.leb c 90)
            || (N.leb 192 c && N.leb c 222 && negb (N.eqb c 215)) = false) as ->;
      [|reflexivity].
    apply orb_true_iff in Pc. destruct Pc as [Pc|Pc].
    + apply N.ltb_lt in Pc. apply orb_false_intro; apply andb_false_iff.
      * left. apply N.leb_gt. lia.
      * left. apply andb_false_iff. left. apply N.leb_gt. lia.
    + apply andb_true_iff in Pc. destruct Pc as [A B].
      apply N.ltb_lt in A, B. apply orb_false_intro; apply andb_false_iff.
      * right. apply N.leb_gt. lia.
      * left. apply andb_false_iff. left. apply N.leb_gt. lia.
Defined.

Definition env : Env :=
  {| JWT_SECRET := Some (js "super_secret");
     ADMIN_INVITE_TOKEN := Some (js "some_key") |}.

Definition env_no_secret : Env :=
  {| JWT_SECRET := None; ADMIN_INVITE_TOKEN := Some (js "some_key") |}.

(** A body of strings. *)
Definition str (s : string) : option jsval := Some (VStr (js s)).

Definition body (n e p : string) (tok : option jsval) : Body.t :=
  Body.mk (str n) (str e) (str p) None tok.

Definition login (e p : option jsval) : Body.t := Body.mk None e p None None.

(** A stored member without a profile image. *)
Definition user (id : nat) (n e p r : string) : User.t :=
  User.mk id (js n) (js e) (js p) (VStr []) (js r).

(** One member, registered as [a@b.com]. *)
Definition store1 : Store :=
  fst (registerUser env (js "salt") 1000 (body "Ann" "a@b.com" "secret1" None) []).

(** Two members, [a@b.com] and [c@d.org]. *)
Definition store2 : Store :=
  fst (registerUser env (js "salt") 2000 (body "Cy" "c@d.org" "secret2" None) store1).

End Demo.

Local Open Scope list_scope.

Arguments js : simpl never.
Arguments reply n code message : simpl never.
Arguments reply_with n code message : simpl never.

(* ================================================================== *)
(** * Properties *)

(* ------------------------------------------------------------------ *)
(** ** Strings *)

Section StringFacts.

Import JsString.

Lemma eqb_eq (a b : jsstring) : eqb a b = true <-> a = b.
Proof.
  revert b. induction a as [|x a IH]; intros [|y b]; simpl;
    try (split; [discriminate | discriminate]); [tauto|].
  rewrite andb_true_iff, N.eqb_eq, IH. split.
  - intros [-> ->]. reflexivity.
  - intros E. injection E as -> ->. split; reflexivity.
Qed.

Lemma eqb_refl (a : jsstring) : eqb a a = true.
Proof. now apply eqb_eq. Qed.

Lemma eqb_neq (a b : jsstring) : eqb a b = false <-> a <> b.
Proof.
  split.
  - intros F E. apply eqb_eq in E. congruence.
  - intros N. destruct (eqb a b) eqn:E; [|reflexivity].
    apply eqb_eq in E. contradiction.
Qed.

Lemma truthy_nonempty (s : jsstring) : truthy s = true <-> s <> [].
Proof. destruct s; simpl; split; congruence. Qed.

Lemma trimStart_clean (s : jsstring) : starts_clean (trimStart s).
Proof.
  induction s as [|c s IH]; simpl; [exact I|].
  destruct (is_ws c) eqn:E; [exact IH | exact E].
Qed.

Lemma trimStart_of_clean (s : jsstring) : starts_clean s -> trimStart s = s.
Proof. destruct s as [|c s]; simpl; [reflexivity|]. now intros ->. Qed.

Lemma trimEnd_clean (s : jsstring) : starts_clean s -> starts_clean (trimEnd s).
Proof.
  destruct s as [|c s]; simpl; [trivial|]. intros H.
  destruct (trimEnd s); [rewrite H|]; exact H.
Qed.

Lemma trimEnd_cons (c : N) (s : jsstring) :
  trimEnd (c :: s) =
    match trimEnd s with
    | [] => if is_ws c then [] else [c]
    | t => c :: t
    end.
Proof. reflexivity. Qed.

Lemma trimEnd_idem (s : jsstring) : trimEnd (trimEnd s) = trimEnd s.
Proof.
  induction s as [|c s IH]; [reflexivity|].
  rewrite (trimEnd_cons c s).
  destruct (trimEnd s) as [|d t] eqn:E.
  - destruct (is_ws c) eqn:W; simpl; [reflexivity | now rewrite W].
  - rewrite (trimEnd_cons c (d :: t)). now rewrite IH.
Qed.

Lemma trim_idem (s : jsstring) : trim (trim s) = trim s.
Proof.
  unfold trim.
  rewrite (trimStart_of_clean (trimEnd (trimStart s))).
  - apply trimEnd_idem.
  - apply trimEnd_clean, trimStart_clean.
Qed.

Lemma trimStart_blank_prefix (pre s : jsstring) :
  all_ws pre = true -> trimStart (pre ++ s) = trimStart s.
Proof.
  induction pre as [|c pre IH]; simpl; [reflexivity|].
  intros W. apply andb_true_iff in W. destruct W as [Wc Wp].
  rewrite Wc. now apply IH.
Qed.

Lemma trimEnd_blank (s : jsstring) : all_ws s = true -> trimEnd s = [].
Proof.
  induction s as [|c s IH]; simpl; [reflexivity|].
  intros W. apply andb_true_iff in W. destruct W as [Wc Ws].
  now rewrite (IH Ws), Wc.
Qed.

Lemma trimStart_blank (s : jsstring) : all_ws s = true -> trimStart s = [].
Proof.
  induction s as [|c s IH]; simpl; [reflexivity|].
  intros W. apply andb_true_iff in W. destruct W as [Wc Ws].
  rewrite Wc. now apply IH.
Qed.

Lemma trimEnd_blank_suffix (s post : jsstring) :
  all_ws post = true -> trimEnd (s ++ post) = trimEnd s.
Proof.
  intros W. induction s as [|c s IH]; simpl.
  - now apply trimEnd_blank.
  - now rewrite IH.
Qed.

Lemma trim_blank_suffix (s post : jsstring) :
  all_ws post = true -> trim (s ++ post) = trim s.
Proof.
  intros W. unfold trim. induction s as [|c s IH]; simpl.
  - now rewrite (trimStart_blank post W).
  - destruct (is_ws c); [exact IH|].
    change (c :: s ++ post) with ((c :: s) ++ post).
    now apply trimEnd_blank_suffix.
Qed.

Lemma trim_blank_around (pre s post : jsstring) :
  all_ws pre = true -> all_ws post = true -> trim (pre ++ s ++ post) = trim s.
Proof.
  intros Wpre Wpost.
  transitivity (trim (s ++ post)); [|now apply trim_blank_suffix].
  unfold trim. now rewrite trimStart_blank_prefix.
Qed.

Lemma trim_blank (s : jsstring) : all_ws s = true -> trim s = [].
Proof. intros W. unfold trim. now rewrite (trimStart_blank s W). Qed.

End StringFacts.

(* ------------------------------------------------------------------ *)
(** ** Values *)

Section ValueFacts.

Context {ext : Externals}.

Lemma or_empty_truthy (o : option jsval) :
  truthy_val (or_empty o) = truthy_opt o.
Proof. destruct o as [v|]; simpl; [|reflexivity]. now destruct (truthy_val v) eqn:T. Qed.

Lemma or_empty_of_truthy (o : option jsval) :
  truthy_opt o = true -> exists v, o = Some v /\ or_empty o = v.
Proof.
  destruct o as [v|]; simpl; [|discriminate]. intros T. exists v. now rewrite T.
Qed.

Lemma or_empty_not_null (o : option jsval) : or_empty o <> VNull.
Proof.
  destruct o as [v|]; simpl; [|discriminate].
  destruct (truthy_val v) eqn:T; [|discriminate].
  intros ->. discriminate T.
Qed.

Lemma or_empty_string (o : option jsval) :
  string_or_absent o = true -> exists s, or_empty o = VStr s.
Proof.
  destruct o as [[]|]; simpl; try discriminate; intros _.
  - destruct (JsString.truthy j); eexists; reflexivity.
  - eexists; reflexivity.
Qed.

(** [.length] of a value that came through [||] never throws. *)
Lemma length_lt_or_empty (o : option jsval) (n : nat) :
  exists w, length_lt (or_empty o) n = inr w.
Proof.
  pose proof (or_empty_not_null o) as NN.
  destruct (or_empty o); simpl; try (eexists; reflexivity). congruence.
Qed.

Lemma normalizeEmail_image (o : option jsval) (e : jsstring) :
  normalizeEmail o = inr e -> exists s, e = toLowerCase (JsString.trim s).
Proof.
  unfold normalizeEmail, call_trim.
  destruct o as [[]|]; intros E; try discriminate E; injection E as <-;
    eexists; reflexivity.
Qed.

Lemma normalizeEmail_idem (o : option jsval) (e : jsstring) :
  normalizeEmail o = inr e -> normalizeEmail (Some (VStr e)) = inr e.
Proof.
  intros E. destruct (normalizeEmail_image o e E) as (s & ->).
  unfold normalizeEmail, call_trim.
  now rewrite toLowerCase_trim, toLowerCase_idem, trim_idem.
Qed.

Lemma normalizeEmail_absent : normalizeEmail None = inr [].
Proof. unfold normalizeEmail, call_trim. simpl. now rewrite toLowerCase_nil. Qed.

Lemma normalizeEmail_blank (s : jsstring) :
  JsString.all_ws s = true -> normalizeEmail (Some (VStr s)) = inr [].
Proof.
  intros W. unfold normalizeEmail, call_trim.
  now rewrite (trim_blank s W), toLowerCase_nil.
Qed.

Lemma normalizeEmail_string (o : option jsval) :
  string_or_absent o = true -> exists e, normalizeEmail o = inr e.
Proof.
  destruct o as [[]|]; simpl; try discriminate; intros _;
    unfold normalizeEmail, call_trim; eexists; reflexivity.
Qed.

(** What the three catch blocks answer to the [TypeError]s of the handlers'
    own calls. *)
Lemma register_name_throws (v : jsval) (err : JsError) :
  call_trim name_or_empty v = inl err ->
  registerUser_catch err = reply 500 "SERVER" "Server error".
Proof.
  destruct v; simpl; intros E; try discriminate E; injection E as <-; reflexivity.
Qed.

Lemma register_email_throws (o : option jsval) (err : JsError) :
  normalizeEmail o = inl err ->
  registerUser_catch err = reply 500 "SERVER" "Server error".
Proof.
  unfold normalizeEmail.
  destruct o as [[]|]; simpl; intros E; try discriminate E; injection E as <-;
    reflexivity.
Qed.

Lemma login_email_throws (o : option jsval) (err : JsError) :
  normalizeEmail o = inl err ->
  loginUser_catch err = reply 500 "SERVER" "Server error".
Proof.
  unfold normalizeEmail.
  destruct o as [[]|]; simpl; intros E; try discriminate E; injection E as <-;
    reflexivity.
Qed.

Lemma update_name_throws (v : jsval) (err : JsError) :
  call_trim "req.body.name" v = inl err ->
  updateUserProfile_catch err = reply 500 "SERVER" "Server error".
Proof.
  destruct v; simpl; intros E; try discriminate E; injection E as <-; reflexivity.
Qed.

Lemma update_email_throws (o : option jsval) (err : JsError) :
  normalizeEmail o = inl err ->
  updateUserProfile_catch err = reply 500 "SERVER" "Server error".
Proof.
  unfold normalizeEmail.
  destruct o as [[]|]; simpl; intros E; try discriminate E; injection E as <-;
    reflexivity.
Qed.

End ValueFacts.

(* ------------------------------------------------------------------ *)
(** ** The handlers, path by path *)

Section HandlerPaths.

Context {ext : Externals}.

Lemma fields_ok_inv (b : Body.t) :
  register_fields_ok b = true ->
  call_trim name_or_empty (or_empty (Body.name b)) = inr (reg_name b) /\
  normalizeEmail (Body.email b) = inr (reg_email b) /\
  length_lt (or_empty (Body.password b)) 6 = inr false /\
  JsString.truthy (reg_name b) = true /\
  JsString.truthy (reg_email b) = true /\
  truthy_val (or_empty (Body.password b)) = true /\
  Regex.test Regex.email_re (reg_email b) = true.
Proof.
  unfold register_fields_ok, reg_name, reg_email.
  destruct (call_trim name_or_empty (or_empty (Body.name b))) as [|n];
    [discriminate|].
  destruct (normalizeEmail (Body.email b)) as [|e]; [discriminate|].
  destruct (length_lt (or_empty (Body.password b)) 6) as [|weak]; [discriminate|].
  rewrite !andb_true_iff. intros [[[[Hn He] Hp] Hr] Hl].
  apply negb_true_iff in Hl. subst weak. repeat split; assumption.
Qed.

(** A request that fails a field check is answered 400, or 500 where a call
    on a value of the wrong type throws; it writes nothing. *)
Lemma registerUser_bad_fields env salt now b st :
  register_fields_ok b = false ->
  fst (registerUser env salt now b st) = st /\
  (status (snd (registerUser env salt now b st)) = 400 \/
   snd (registerUser env salt now b st) = reply 500 "SERVER" "Server error").
Proof.
  unfold register_fields_ok, registerUser, try_catch, registerUser_try, bind, lift.
  destruct (call_trim name_or_empty (or_empty (Body.name b))) as [err|n] eqn:N.
  { intros _. split; [reflexivity|]. right. simpl.
    apply (register_name_throws _ _ N). }
  destruct (normalizeEmail (Body.email b)) as [err|e] eqn:E.
  { intros _. split; [reflexivity|]. right. simpl.
    apply (register_email_throws _ _ E). }
  destruct (length_lt_or_empty (Body.password b) 6) as (weak & L). rewrite L.
  intros H.
  destruct (negb (JsString.truthy n) || negb (JsString.truthy e)
            || negb (truthy_val (or_empty (Body.password b)))) eqn:G;
    [split; [reflexivity | now left]|].
  apply orb_false_iff in G. destruct G as [G Gp].
  apply orb_false_iff in G. destruct G as [Gn Ge].
  apply negb_false_iff in Gn, Ge, Gp. rewrite Gn, Ge, Gp in H.
  destruct (Regex.test Regex.email_re e); simpl in H;
    [|split; [reflexivity | now left]].
  cbn [negb]. destruct weak; [split; [reflexivity | now left]|].
  discriminate H.
Qed.

(** A request that passes the field checks: invite gate, duplicate check,
    hashing, then the write and the answer. *)
Lemma registerUser_good_fields env salt now b st :
  register_fields_ok b = true ->
  registerUser env salt now b st =
    if token_supplied b && negb (token_matches env b) then
      (st, reply 403 "BAD_INVITE" "Invalid admin invite token")
    else if UserModel.exists_email (reg_email b) st then
      (st, reply 409 "DUP_EMAIL" "Email already registered")
    else
      match hash_value (or_empty (Body.password b)) salt with
      | inl err => (st, registerUser_catch err)
      | inr _ =>
          match UserModel.store_image (or_empty (Body.profileImageUrl b)) with
          | inl err => (st, registerUser_catch err)
          | inr _ =>
              (st ++ [new_user env salt b st],
               answer 201 registerUser_catch
                 (sendUser env now (new_user env salt b st)))
          end
      end.
Proof.
  intros H. destruct (fields_ok_inv b H) as (Hn & He & Hl & Tn & Te & Tp & Tr).
  unfold registerUser, try_catch, registerUser_try, bind, lift.
  rewrite Hn, He, Tn, Te, Tp, Tr. cbn [negb orb]. rewrite Hl.
  unfold token_supplied, token_matches.
  destruct (truthy_opt (Body.adminInviteToken b)
            && negb (strict_eq (Body.adminInviteToken b) (ADMIN_INVITE_TOKEN env)));
    [reflexivity|].
  unfold query.
  destruct (UserModel.exists_email (reg_email b) st) eqn:X; [reflexivity|].
  unfold new_user, token_supplied, token_matches.
  destruct (hash_value (or_empty (Body.password b)) salt) as [err|h];
    [reflexivity|].
  unfold UserModel.create.
  destruct (UserModel.store_image (or_empty (Body.profileImageUrl b)))
    as [err|img]; [reflexivity|].
  rewrite X. unfold answer, ret.
  destruct (sendUser env now _); reflexivity.
Qed.

(** Whatever the request, registration leaves the collection alone or
    appends the one document it built. *)
Lemma registerUser_store env salt now b st :
  fst (registerUser env salt now b st) = st \/
  fst (registerUser env salt now b st) = st ++ [new_user env salt b st].
Proof.
  destruct (register_fields_ok b) eqn:F.
  - rewrite (registerUser_good_fields env salt now b st F).
    destruct (token_supplied b && negb (token_matches env b)); [now left|].
    destruct (UserModel.exists_email _ st); [now left|].
    destruct (hash_value _ salt); [now left|].
    destruct (UserModel.store_image _); [now left | now right].
  - left. now apply registerUser_bad_fields.
Qed.

Lemma loginUser_paths env now b st :
  loginUser env now b st =
    match normalizeEmail (Body.email b) with
    | inl err => (st, loginUser_catch err)
    | inr e =>
        if negb (credentials_supplied b) then
          (st, reply 400 "MISSING_FIELDS" "Email and password are required")
        else
          match UserModel.findOne e st with
          | None => (st, reply 401 "BAD_CREDENTIALS" "Invalid email or password")
          | Some user =>
              match compare_value (or_empty (Body.password b)) (User.password user) with
              | inl err => (st, loginUser_catch err)
              | inr true => (st, answer 200 loginUser_catch (sendUser env now user))
              | inr false =>
                  (st, reply 401 "BAD_CREDENTIALS" "Invalid email or password")
              end
          end
    end.
Proof.
  unfold loginUser, try_catch, loginUser_try, credentials_supplied, bind, lift.
  destruct (normalizeEmail (Body.email b)) as [err|e]; [reflexivity|].
  rewrite negb_andb.
  destruct (negb (JsString.truthy e)
            || negb (truthy_val (or_empty (Body.password b)))); [reflexivity|].
  unfold query.
  destruct (UserModel.findOne e st) as [user|]; [|reflexivity].
  destruct (compare_value _ _) as [err|[]]; simpl; try reflexivity.
  unfold answer, ret. destruct (sendUser env now user); reflexivity.
Qed.

Lemma loginUser_store env now b st : fst (loginUser env now b st) = st.
Proof.
  rewrite loginUser_paths.
  destruct (normalizeEmail (Body.email b)); [reflexivity|].
  destruct (negb (credentials_supplied b)); [reflexivity|].
  destruct (UserModel.findOne _ st); [|reflexivity].
  destruct (compare_value _ _) as [|[]]; reflexivity.
Qed.

Lemma updateUserProfile_paths env salt now userId b st :
  updateUserProfile env salt now userId b st =
    match UserModel.findById userId st with
    | None => (st, reply 404 "NOT_FOUND" "User not found")
    | Some user0 =>
        match assign_fields b user0 with
        | inl err => (st, updateUserProfile_catch err)
        | inr _ =>
            if weak_password b then
              (st, reply 400 "WEAK_PASSWORD" "Password must be at least 6 characters")
            else
              match update_doc salt b user0 with
              | inl err => (st, updateUserProfile_catch err)
              | inr d =>
                  if truthy_opt (Body.email b)
                     && UserModel.exists_other (User._id (UserModel.members d))
                          (User.email (UserModel.members d)) st then
                    (st, reply 409 "DUP_EMAIL" "Email already registered")
                  else
                    match UserModel.invalid d with
                    | Some err => (st, updateUserProfile_catch err)
                    | None =>
                        if UserModel.exists_other (User._id (UserModel.members d))
                             (User.email (UserModel.members d)) st then
                          (st, reply 409 "DUP_EMAIL" "Email already registered")
                        else
                          (overwrite (UserModel.members d) st,
                           answer 200 updateUserProfile_catch
                             (sendUser env now (UserModel.members d)))
                    end
              end
        end
    end.
Proof.
  unfold updateUserProfile, try_catch, updateUserProfile_try, weak_password,
    update_doc.
  unfold bind at 1. unfold query at 1.
  destruct (UserModel.findById userId st) as [user0|]; [|reflexivity].
  unfold bind, lift.
  destruct (assign_fields b user0) as [err|d0]; [reflexivity|].
  destruct (truthy_opt (Body.password b)) eqn:P.
  - destruct (length_lt_or_empty (Body.password b) 6) as (weak & L). rewrite L.
    cbn [andb]. destruct weak; [reflexivity|].
    destruct (hash_value (or_empty (Body.password b)) salt) as [err|h];
      [reflexivity|].
    unfold query.
    destruct (truthy_opt (Body.email b) && _); [reflexivity|].
    unfold UserModel.save.
    destruct (UserModel.invalid _); [reflexivity|].
    destruct (UserModel.exists_other _ _ st); [reflexivity|].
    unfold answer, ret, overwrite. destruct (sendUser env now _); reflexivity.
  - cbn [andb]. unfold query.
    destruct (truthy_opt (Body.email b) && _); [reflexivity|].
    unfold UserModel.save.
    destruct (UserModel.invalid _); [reflexivity|].
    destruct (UserModel.exists_other _ _ st); [reflexivity|].
    unfold answer, ret, overwrite. destruct (sendUser env now _); reflexivity.
Qed.

(** What the assignments of [updateUserProfile] never touch, and what they
    make of the email. *)
Lemma assign_fields_members (b : Body.t) (user : User.t) (d : UserModel.Doc) :
  assign_fields b user = inr d ->
  User._id (UserModel.members d) = User._id user /\
  User.role (UserModel.members d) = User.role user /\
  User.password (UserModel.members d) = User.password user /\
  User.email (UserModel.members d)
    = (if truthy_opt (Body.email b) then reg_email b else User.email user) /\
  (truthy_opt (Body.email b) = true ->
     normalizeEmail (Body.email b) = inr (reg_email b)).
Proof.
  unfold assign_fields, reg_email.
  destruct (truthy_opt (Body.name b));
    [destruct (call_trim "req.body.name" (or_empty (Body.name b))) as [|n];
       [discriminate|]|];
    (destruct (truthy_opt (Body.email b));
     [destruct (normalizeEmail (Body.email b)) as [|e]; [discriminate|]|]);
    intros E; injection E as <-;
    (destruct (Body.profileImageUrl b) as [img|];
     [unfold UserModel.set_image; destruct (UserModel.store_image img)|]);
    simpl; repeat split; intros; try reflexivity; discriminate.
Qed.

Lemma update_doc_members (salt : jsstring) (b : Body.t) (user : User.t)
  (d : UserModel.Doc) :
  update_doc salt b user = inr d ->
  User._id (UserModel.members d) = User._id user /\
  User.role (UserModel.members d) = User.role user /\
  User.email (UserModel.members d)
    = (if truthy_opt (Body.email b) then reg_email b else User.email user) /\
  (truthy_opt (Body.email b) = true ->
     normalizeEmail (Body.email b) = inr (reg_email b)).
Proof.
  unfold update_doc.
  destruct (assign_fields b user) as [|d0] eqn:A; [discriminate|].
  destruct (assign_fields_members b user d0 A) as (Hid & Hr & _ & He & Hn).
  destruct (truthy_opt (Body.password b));
    [destruct (hash_value _ salt); [discriminate|]|];
    intros E; injection E as <-; simpl; repeat split; assumption.
Qed.

Lemma updated_user_id salt b u : User._id (updated_user salt b u) = User._id u.
Proof.
  unfold updated_user. destruct (update_doc salt b u) as [|d] eqn:D; [reflexivity|].
  exact (proj1 (update_doc_members salt b u d D)).
Qed.

Lemma updated_user_role salt b u : User.role (updated_user salt b u) = User.role u.
Proof.
  unfold updated_user. destruct (update_doc salt b u) as [|d] eqn:D; [reflexivity|].
  exact (proj1 (proj2 (update_doc_members salt b u d D))).
Qed.

End HandlerPaths.

(* ------------------------------------------------------------------ *)
(** ** What every reachable collection satisfies *)

Section StoreInvariant.

Context {ext : Externals}.

Lemma findById_some userId st u :
  UserModel.findById userId st = Some u -> In u st /\ User._id u = userId.
Proof.
  unfold UserModel.findById. intros H. apply find_some in H.
  destruct H as [Hin Hid]. split; [exact Hin | now apply Nat.eqb_eq].
Qed.

Lemma findOne_some e st u :
  UserModel.findOne e st = Some u -> In u st /\ User.email u = e.
Proof.
  unfold UserModel.findOne. intros H. apply find_some in H.
  destruct H as [Hin He]. split; [exact Hin | now apply eqb_eq].
Qed.

Lemma exists_email_false e st :
  UserModel.exists_email e st = false ->
  forall u, In u st -> User.email u <> e.
Proof.
  unfold UserModel.exists_email. intros H u Hin He.
  assert (existsb (fun u => JsString.eqb (User.email u) e) st = true) as T.
  { apply existsb_exists. exists u. split; [exact Hin | now apply eqb_eq]. }
  congruence.
Qed.

Lemma exists_email_true e st u :
  In u st -> User.email u = e -> UserModel.exists_email e st = true.
Proof.
  intros Hin He. apply existsb_exists. exists u.
  split; [exact Hin | now apply eqb_eq].
Qed.

Lemma exists_other_false userId e st :
  UserModel.exists_other userId e st = false ->
  forall u, In u st -> User.email u = e -> User._id u = userId.
Proof.
  unfold UserModel.exists_other. intros H u Hin He.
  destruct (Nat.eq_dec (User._id u) userId) as [|N]; [assumption|].
  assert (existsb (fun u => negb (Nat.eqb (User._id u) userId)
                            && JsString.eqb (User.email u) e) st = true) as T.
  { apply existsb_exists. exists u. split; [exact Hin|].
    apply andb_true_iff. split.
    - apply negb_true_iff. now apply Nat.eqb_neq.
    - now apply eqb_eq. }
  congruence.
Qed.

Lemma exists_other_true userId e st u :
  In u st -> User.email u = e -> User._id u <> userId ->
  UserModel.exists_other userId e st = true.
Proof.
  intros Hin He N. apply existsb_exists. exists u. split; [exact Hin|].
  apply andb_true_iff. split.
  - apply negb_true_iff. now apply Nat.eqb_neq.
  - now apply eqb_eq.
Qed.

Lemma fresh_id_new st : ~ In (UserModel.fresh_id st) (map User._id st).
Proof.
  unfold UserModel.fresh_id. intros Hin.
  assert (Forall (fun k => k <= list_max (map User._id st)) (map User._id st)) as F
    by now apply list_max_le.
  rewrite Forall_forall in F. apply F in Hin. lia.
Qed.

Lemma NoDup_snoc (l : list nat) (a : nat) :
  NoDup l -> ~ In a l -> NoDup (l ++ [a]).
Proof.
  induction l as [|x l IH]; simpl; intros Hnd Hnin.
  - constructor; [intros []|constructor].
  - inversion Hnd as [|? ? Hx Hl]; subst. constructor.
    + intros Hin. apply in_app_or in Hin. destruct Hin as [Hin|[->|[]]].
      * now apply Hx.
      * apply Hnin. now left.
    + apply IH; [exact Hl|]. intros Hin. apply Hnin. now right.
Qed.

Lemma store_ok_nil : store_ok [].
Proof.
  repeat split.
  - constructor.
  - intros u v [].
  - intros u [].
Qed.

Lemma store_ok_append st u :
  store_ok st ->
  User._id u = UserModel.fresh_id st ->
  UserModel.exists_email (User.email u) st = false ->
  normalizeEmail (Some (VStr (User.email u))) = inr (User.email u) ->
  store_ok (st ++ [u]).
Proof.
  intros (Hid & Hun & Hno) Hfresh Hex Hnorm. repeat split.
  - unfold distinct_ids. rewrite map_app. simpl.
    apply NoDup_snoc; [exact Hid|]. rewrite Hfresh. apply fresh_id_new.
  - intros x y Hx Hy E. apply in_app_or in Hx. apply in_app_or in Hy.
    destruct Hx as [Hx|[<-|[]]], Hy as [Hy|[<-|[]]].
    + now apply Hun.
    + exfalso. now apply (exists_email_false _ _ Hex x Hx).
    + exfalso. now apply (exists_email_false _ _ Hex y Hy).
    + reflexivity.
  - intros x Hx. apply in_app_or in Hx. destruct Hx as [Hx|[<-|[]]].
    + now apply Hno.
    + exact Hnorm.
Qed.

Lemma overwrite_ids doc st : map User._id (overwrite doc st) = map User._id st.
Proof.
  unfold overwrite. rewrite map_map. apply map_ext. intros v.
  destruct (Nat.eqb (User._id v) (User._id doc)) eqn:E; [|reflexivity].
  apply Nat.eqb_eq in E. now symmetry.
Qed.

Lemma overwrite_in doc st x :
  In x (overwrite doc st) ->
  x = doc \/ (In x st /\ User._id x <> User._id doc).
Proof.
  unfold overwrite. intros H. apply in_map_iff in H. destruct H as (v & Hv & Hin).
  destruct (Nat.eqb (User._id v) (User._id doc)) eqn:E.
  - left. now symmetry.
  - right. subst x. split; [exact Hin | now apply Nat.eqb_neq].
Qed.

Lemma store_ok_overwrite st doc :
  store_ok st ->
  UserModel.exists_other (User._id doc) (User.email doc) st = false ->
  normalizeEmail (Some (VStr (User.email doc))) = inr (User.email doc) ->
  store_ok (overwrite doc st).
Proof.
  intros (Hid & Hun & Hno) Hex Hnorm. repeat split.
  - unfold distinct_ids. now rewrite overwrite_ids.
  - intros x y Hx Hy E.
    apply overwrite_in in Hx. apply overwrite_in in Hy.
    destruct Hx as [->|[Hx Nx]], Hy as [->|[Hy Ny]].
    + reflexivity.
    + symmetry. now apply (exists_other_false _ _ _ Hex y Hy).
    + now apply (exists_other_false _ _ _ Hex x Hx).
    + now apply Hun.
  - intros x Hx. apply overwrite_in in Hx. destruct Hx as [->|[Hx _]].
    + exact Hnorm.
    + now apply Hno.
Qed.

Lemma registerUser_store_ok env salt now b st :
  store_ok st -> store_ok (fst (registerUser env salt now b st)).
Proof.
  intros Hok. destruct (register_fields_ok b) eqn:F.
  - rewrite (registerUser_good_fields env salt now b st F).
    destruct (fields_ok_inv b F) as (_ & He & _).
    destruct (token_supplied b && negb (token_matches env b)); [exact Hok|].
    destruct (UserModel.exists_email _ st) eqn:E; [exact Hok|].
    destruct (hash_value _ salt); [exact Hok|].
    destruct (UserModel.store_image _); [exact Hok|].
    simpl. apply store_ok_append; try assumption; try reflexivity.
    simpl. now apply (normalizeEmail_idem (Body.email b)).
  - now rewrite (proj1 (registerUser_bad_fields env salt now b st F)).
Qed.

Lemma updateUserProfile_store_ok env salt now userId b st :
  store_ok st -> store_ok (fst (updateUserProfile env salt now userId b st)).
Proof.
  intros Hok. rewrite updateUserProfile_paths.
  destruct (UserModel.findById userId st) as [u0|] eqn:Fd; [|exact Hok].
  destruct (assign_fields b u0) as [|d0]; [exact Hok|].
  destruct (weak_password b); [exact Hok|].
  destruct (update_doc salt b u0) as [|d] eqn:D; [exact Hok|].
  destruct (truthy_opt (Body.email b) && _); [exact Hok|].
  destruct (UserModel.invalid d); [exact Hok|].
  destruct (UserModel.exists_other _ _ st) eqn:E; [exact Hok|].
  simpl. apply store_ok_overwrite; try assumption.
  destruct (update_doc_members salt b u0 d D) as (_ & _ & He & Hn).
  rewrite He. destruct (truthy_opt (Body.email b)).
  - now apply (normalizeEmail_idem (Body.email b)), Hn.
  - destruct Hok as (_ & _ & Hno). apply Hno.
    now apply (findById_some userId st u0).
Qed.

(** Reachable collections are well formed. *)
Lemma reachable_store_ok st : reachable st -> store_ok st.
Proof.
  induction 1 as [|env salt now b st _ IH|env now b st _ IH
                  |env salt now userId b st _ IH].
  - apply store_ok_nil.
  - now apply registerUser_store_ok.
  - now rewrite loginUser_store.
  - now apply updateUserProfile_store_ok.
Qed.

End StoreInvariant.

(* ================================================================== *)
(** * Properties of the specification *)

(* ------------------------------------------------------------------ *)
(** ** Login *)

(** C10, as stated, fails: with [null] for the email the call of [trim]
    throws before the guard, and so it does with a number for the email and
    an empty password; both are answered 500 SERVER, not 400. *)
Lemma login_missing_fields_counterexample :
  loginUser (ext := Demo.externals) Demo.env 3000
    (Demo.login (Some VNull) (Demo.str "secret1")) Demo.store1
    = (Demo.store1, reply 500 "SERVER" "Server error") /\
  truthy_opt (Body.password (Demo.login (Some (VNum 5%float)) (Demo.str ""))) = false /\
  loginUser (ext := Demo.externals) Demo.env 3000
    (Demo.login (Some (VNum 5%float)) (Demo.str "")) Demo.store1
    = (Demo.store1, reply 500 "SERVER" "Server error").
Proof. split; [reflexivity|]. split; reflexivity. Qed.

(** C10, amended.  A login request whose email is absent or a string, and in
    which the email is absent or empty or the password is absent, empty or
    any other falsy value, is answered 400 with code MISSING_FIELDS, never
    401; the collection is not touched. *)
Theorem login_missing_fields `{Externals} (env : Env) (now : Z) (b : Body.t)
  (st : Store) :
  string_or_absent (Body.email b) = true ->
  truthy_opt (Body.email b) = false \/ truthy_opt (Body.password b) = false ->
  loginUser env now b st
    = (st, reply 400 "MISSING_FIELDS" "Email and password are required") /\
  status (snd (loginUser env now b st)) <> 401.
Proof.
  intros Hs Hmiss.
  destruct (normalizeEmail_string _ Hs) as (e & He).
  assert (credentials_supplied b = false) as C.
  { unfold credentials_supplied. rewrite He. destruct Hmiss as [Hm|Hm].
    - assert (e = []) as ->; [|reflexivity].
      destruct (Body.email b) as [[]|]; try discriminate Hs.
      + destruct j; [|discriminate Hm].
        rewrite (normalizeEmail_blank [] eq_refl) in He. congruence.
      + rewrite normalizeEmail_absent in He. congruence.
    - rewrite or_empty_truthy, Hm. apply andb_false_r. }
  rewrite loginUser_paths, He, C. split; [reflexivity | discriminate].
Qed.

Lemma login_missing_fields_witness :
  loginUser (ext := Demo.externals) Demo.env 3000
    (Demo.login (Demo.str "a@b.com") (Some VNull)) Demo.store1
    = (Demo.store1, reply 400 "MISSING_FIELDS" "Email and password are required") /\
  loginUser (ext := Demo.externals) Demo.env 3000
    (Demo.login None (Demo.str "secret1")) Demo.store1
    = (Demo.store1, reply 400 "MISSING_FIELDS" "Email and password are required").
Proof.
  split.
  - apply (login_missing_fields (H := Demo.externals) Demo.env 3000
             (Demo.login (Demo.str "a@b.com") (Some VNull)) Demo.store1).
    + reflexivity.
    + right. reflexivity.
  - apply (login_missing_fields (H := Demo.externals) Demo.env 3000
             (Demo.login None (Demo.str "secret1")) Demo.store1).
    + reflexivity.
    + left. reflexivity.
Defined.



(* ------------------------------------------------------------------ *)
(** ** Registration *)

Lemma snoc_unchanged_absurd (st : Store) (u : User.t) : st <> st ++ [u].
Proof.
  intros E. apply (f_equal (@length User.t)) in E.
  rewrite length_app in E. simpl in E. lia.
Qed.

(** Every document a registration adds is the one [new_user] describes. *)
Lemma registerUser_added `{Externals} env salt now b st u :
  fst (registerUser env salt now b st) = st ++ [u] -> u = new_user env salt b st.
Proof.
  intros E. destruct (registerUser_store env salt now b st) as [S|S]; rewrite S in E.
  - now apply snoc_unchanged_absurd in E.
  - apply app_inj_tail in E. now destruct E.
Qed.

Lemma hash_of_string `{Externals} (o : option jsval) (salt : jsstring) :
  string_or_absent o = true ->
  exists p, or_empty o = VStr p /\
            hash_value (or_empty o) salt = inr (bcrypt_hash p salt).
Proof.
  intros S. destruct (or_empty_string o S) as (p & E).
  exists p. rewrite E. split; reflexivity.
Qed.

Lemma image_of_string `{Externals} (o : option jsval) :
  string_or_absent o = true ->
  UserModel.store_image (or_empty o) = inr (or_empty o).
Proof.
  intros S. destruct (or_empty_string o S) as (p & E). now rewrite E.
Qed.

Lemma strings_or_absent_inv (b : Body.t) :
  strings_or_absent b = true ->
  string_or_absent (Body.name b) = true /\
  string_or_absent (Body.email b) = true /\
  string_or_absent (Body.password b) = true /\
  string_or_absent (Body.profileImageUrl b) = true /\
  string_or_absent (Body.adminInviteToken b) = true.
Proof.
  unfold strings_or_absent. rewrite !andb_true_iff. tauto.
Qed.

(** A request of strings that passes the field, invite and duplicate checks
    is written. *)
Lemma registerUser_written `{Externals} env salt now b st :
  register_fields_ok b = true ->
  strings_or_absent b = true ->
  token_supplied b && negb (token_matches env b) = false ->
  UserModel.exists_email (reg_email b) st = false ->
  registerUser env salt now b st =
    (st ++ [new_user env salt b st],
     answer 201 registerUser_catch (sendUser env now (new_user env salt b st))).
Proof.
  intros F S G X. destruct (strings_or_absent_inv b S) as (_ & _ & Sp & Si & _).
  rewrite (registerUser_good_fields env salt now b st F), G, X.
  destruct (hash_of_string (Body.password b) salt Sp) as (p & _ & ->).
  now rewrite (image_of_string _ Si).
Qed.

(** C1, as stated, fails on two requests.  With an empty name and a wrong
    token the answer is 400 MISSING_FIELDS, not 403.  With the empty string
    as token, which is not the configured secret, the user is created as a
    member. *)
Lemma invite_gate_counterexample :
  Body.adminInviteToken (Demo.body "" "eve@x.io" "secret1" (Demo.str "guess"))
    <> Some (VStr (js "some_key")) /\
  registerUser (ext := Demo.externals) Demo.env (js "salt") 3000
    (Demo.body "" "eve@x.io" "secret1" (Demo.str "guess")) []
    = ([], reply 400 "MISSING_FIELDS" "Name, email and password are required") /\
  Body.adminInviteToken (Demo.body "Eve" "eve@x.io" "secret1" (Demo.str ""))
    <> Some (VStr (js "some_key")) /\
  fst (registerUser (ext := Demo.externals) Demo.env (js "salt") 3000
         (Demo.body "Eve" "eve@x.io" "secret1" (Demo.str "")) [])
    = [Demo.user 1 "Eve" "eve@x.io" "salt$secret1" "member"] /\
  status (snd (registerUser (ext := Demo.externals) Demo.env (js "salt") 3000
                 (Demo.body "Eve" "eve@x.io" "secret1" (Demo.str "")) [])) = 201.
Proof.
  split; [discriminate|]. split; [reflexivity|].
  split; [discriminate|]. split; reflexivity.
Qed.

(** C1, amended.  A token is supplied when it is present and truthy (not the
    empty string).
    - A supplied token that is not the configured secret never creates a
      user, and a request that passes the field checks is then answered 403
      BAD_INVITE.
    - With a supplied token that is the secret, a user that registration
      adds has role admin, and one is added when the request is made of
      strings, passes the field checks and its email is not registered yet.
    - With no token supplied the same holds with role member. *)
Theorem register_invite_token `{Externals} (env : Env) (salt : jsstring)
  (now : Z) (b : Body.t) (st : Store) :
  (token_supplied b = true -> token_matches env b = false ->
     fst (registerUser env salt now b st) = st /\
     (register_fields_ok b = true ->
      snd (registerUser env salt now b st)
        = reply 403 "BAD_INVITE" "Invalid admin invite token")) /\
  (token_supplied b = true -> token_matches env b = true ->
     (forall u, fst (registerUser env salt now b st) = st ++ [u] ->
                User.role u = js "admin") /\
     (register_fields_ok b = true -> strings_or_absent b = true ->
      UserModel.exists_email (reg_email b) st = false ->
      exists u, fst (registerUser env salt now b st) = st ++ [u] /\
                User.role u = js "admin")) /\
  (token_supplied b = false ->
     (forall u, fst (registerUser env salt now b st) = st ++ [u] ->
                User.role u = js "member") /\
     (register_fields_ok b = true -> strings_or_absent b = true ->
      UserModel.exists_email (reg_email b) st = false ->
      exists u, fst (registerUser env salt now b st) = st ++ [u] /\
                User.role u = js "member")).
Proof.
  split; [|split].
  - intros S M. split.
    + destruct (register_fields_ok b) eqn:F.
      * rewrite (registerUser_good_fields env salt now b st F), S, M. reflexivity.
      * now apply registerUser_bad_fields.
    + intros F. rewrite (registerUser_good_fields env salt now b st F), S, M.
      reflexivity.
  - intros S M. split.
    + intros u E. rewrite (registerUser_added env salt now b st u E).
      unfold new_user. simpl. now rewrite S, M.
    + intros F T E. exists (new_user env salt b st).
      rewrite (registerUser_written env salt now b st F T); [| |exact E].
      * split; [reflexivity|]. unfold new_user. simpl. now rewrite S, M.
      * now rewrite S, M.
  - intros S. split.
    + intros u E. rewrite (registerUser_added env salt now b st u E).
      unfold new_user. simpl. now rewrite S.
    + intros F T E. exists (new_user env salt b st).
      rewrite (registerUser_written env salt now b st F T); [| |exact E].
      * split; [reflexivity|]. unfold new_user. simpl. now rewrite S.
      * now rewrite S.
Qed.

Lemma register_invite_token_witness :
  snd (registerUser (ext := Demo.externals) Demo.env (js "salt") 3000
         (Demo.body "Eve" "eve@x.io" "secret1" (Demo.str "guess")) Demo.store1)
    = reply 403 "BAD_INVITE" "Invalid admin invite token" /\
  (exists u,
     fst (registerUser (ext := Demo.externals) Demo.env (js "salt") 3000
            (Demo.body "Eve" "eve@x.io" "secret1" (Demo.str "some_key")) Demo.store1)
       = Demo.store1 ++ [u] /\ User.role u = js "admin") /\
  (exists u,
     fst (registerUser (ext := Demo.externals) Demo.env (js "salt") 3000
            (Demo.body "Eve" "eve@x.io" "secret1" None) Demo.store1)
       = Demo.store1 ++ [u] /\ User.role u = js "member").
Proof.
  split; [|split].
  - destruct (register_invite_token (H := Demo.externals) Demo.env (js "salt")
                3000 (Demo.body "Eve" "eve@x.io" "secret1" (Demo.str "guess"))
                Demo.store1) as (W & _ & _).
    exact (proj2 (W eq_refl eq_refl) eq_refl).
  - destruct (register_invite_token (H := Demo.externals) Demo.env (js "salt")
                3000 (Demo.body "Eve" "eve@x.io" "secret1" (Demo.str "some_key"))
                Demo.store1) as (_ & A & _).
    exact (proj2 (A eq_refl eq_refl) eq_refl eq_refl eq_refl).
  - destruct (register_invite_token (H := Demo.externals) Demo.env (js "salt")
                3000 (Demo.body "Eve" "eve@x.io" "secret1" None)
                Demo.store1) as (_ & _ & Mb).
    exact (proj2 (Mb eq_refl) eq_refl eq_refl eq_refl).
Defined.

(** C3, as stated, fails: a registration for [A@b.com] while [a@b.com] is
    registered, sent with a wrong invite token, is answered 403 BAD_INVITE,
    not 409. *)
Lemma duplicate_email_counterexample :
  (exists u, In u Demo.store1 /\
             normalizeEmail (ext := Demo.externals) (Some (VStr (User.email u)))
               = normalizeEmail (ext := Demo.externals) (Demo.str "A@b.com")) /\
  registerUser (ext := Demo.externals) Demo.env (js "salt") 3000
    (Demo.body "Eve" "A@b.com" "secret1" (Demo.str "guess")) Demo.store1
    = (Demo.store1, reply 403 "BAD_INVITE" "Invalid admin invite token").
Proof.
  split; [|reflexivity].
  eexists. split; [left; reflexivity | reflexivity].
Qed.

(** C3, amended.  In a collection the handlers have produced, a registration
    that passes the field checks and the invite check, and whose email equals
    a registered user's after trimming and lower-casing both, is answered 409
    DUP_EMAIL and stores nothing. *)
Theorem register_duplicate_email `{Externals} (env : Env) (salt : jsstring)
  (now : Z) (b : Body.t) (st : Store) (u : User.t) :
  reachable st ->
  register_fields_ok b = true ->
  token_supplied b && negb (token_matches env b) = false ->
  In u st ->
  normalizeEmail (Some (VStr (User.email u))) = normalizeEmail (Body.email b) ->
  registerUser env salt now b st
    = (st, reply 409 "DUP_EMAIL" "Email already registered").
Proof.
  intros R F G Hin E.
  destruct (reachable_store_ok st R) as (_ & _ & Hno).
  destruct (fields_ok_inv b F) as (_ & He & _).
  rewrite (Hno u Hin), He in E. injection E as E.
  rewrite (registerUser_good_fields env salt now b st F), G.
  now rewrite (exists_email_true _ st u Hin E).
Qed.

Lemma register_duplicate_email_witness :
  registerUser (ext := Demo.externals) Demo.env (js "salt") 3000
    (Demo.body "Eve" "  A@b.com " "secret1" None) Demo.store1
    = (Demo.store1, reply 409 "DUP_EMAIL" "Email already registered").
Proof.
  apply (register_duplicate_email (H := Demo.externals) Demo.env (js "salt") 3000
           (Demo.body "Eve" "  A@b.com " "secret1" None) Demo.store1
           (Demo.user 1 "Ann" "a@b.com" "salt$secret1" "member")).
  - apply (reach_register (ext := Demo.externals)), reach_empty.
  - reflexivity.
  - reflexivity.
  - left. reflexivity.
  - reflexivity.
Defined.

(* ------------------------------------------------------------------ *)
(** ** The signing secret and the shape of a success *)

Lemma sendUser_no_secret `{Externals} env now user :
  hasJwtSecret env = false ->
  sendUser env now user = inl (Error "JWT_SECRET not set").
Proof. intros N. unfold sendUser, generateToken. now rewrite N. Qed.

Lemma sendUser_with_secret `{Externals} env now user :
  hasJwtSecret env = true ->
  exists secret,
    JWT_SECRET env = Some secret /\
    sendUser env now user =
      inr [ ("_id", JObjectId (User._id user));
            ("name", JString (User.name user));
            ("email", JString (User.email user));
            ("role", JString (User.role user));
            ("profileImageUrl", JValue (User.profileImageUrl user));
            ("token", JString (jwt_sign (User._id user) secret (js "7d") now)) ].
Proof.
  intros Y. unfold sendUser, generateToken. rewrite Y. simpl.
  unfold hasJwtSecret in Y. destruct (JWT_SECRET env) as [secret|]; [|discriminate].
  exists secret. split; reflexivity.
Qed.

Lemma registerUser_catch_status `{Externals} (err : JsError) :
  status (registerUser_catch err) <> 201.
Proof.
  unfold registerUser_catch.
  destruct (match err_code err with Some c => Z.eqb c 11000 | None => false end);
    [discriminate|].
  destruct (JsString.eqb _ _); [discriminate|].
  destruct (_ && _); discriminate.
Qed.

Lemma loginUser_catch_status `{Externals} (err : JsError) :
  status (loginUser_catch err) = 500.
Proof. unfold loginUser_catch. destruct (_ && _); reflexivity. Qed.

Lemma updateUserProfile_catch_status `{Externals} (err : JsError) :
  status (updateUserProfile_catch err) = 409 \/
  status (updateUserProfile_catch err) = 500.
Proof.
  unfold updateUserProfile_catch.
  destruct (match err_code err with Some c => Z.eqb c 11000 | None => false end);
    [now left | now right].
Qed.

Lemma registerUser_status_201 `{Externals} env salt now b st :
  status (snd (registerUser env salt now b st)) = 201 ->
  hasJwtSecret env = true /\
  register_fields_ok b = true /\
  registerUser env salt now b st =
    (st ++ [new_user env salt b st],
     answer 201 registerUser_catch (sendUser env now (new_user env salt b st))).
Proof.
  intros S. destruct (register_fields_ok b) eqn:F.
  - rewrite (registerUser_good_fields env salt now b st F) in *.
    destruct (token_supplied b && negb (token_matches env b)); [discriminate S|].
    destruct (UserModel.exists_email _ st); [discriminate S|].
    destruct (hash_value _ salt);
      [now apply registerUser_catch_status in S|].
    destruct (UserModel.store_image _);
      [now apply registerUser_catch_status in S|].
    split; [|split; reflexivity].
    destruct (hasJwtSecret env) eqn:J; [reflexivity|].
    simpl in S. rewrite (sendUser_no_secret env now _ J) in S. discriminate S.
  - destruct (registerUser_bad_fields env salt now b st F) as [_ [S'|S']].
    + congruence.
    + rewrite S' in S. discriminate S.
Qed.

Lemma loginUser_status_200 `{Externals} env now b st :
  status (snd (loginUser env now b st)) = 200 ->
  hasJwtSecret env = true /\
  exists user,
    UserModel.findOne (reg_email b) st = Some user /\
    compare_value (or_empty (Body.password b)) (User.password user) = inr true /\
    loginUser env now b st = (st, answer 200 loginUser_catch (sendUser env now user)).
Proof.
  rewrite loginUser_paths. unfold reg_email.
  destruct (normalizeEmail (Body.email b)) as [err|e].
  { intros S. simpl in S. rewrite loginUser_catch_status in S. discriminate S. }
  destruct (negb (credentials_supplied b)); [discriminate|].
  destruct (UserModel.findOne e st) as [user|]; [|discriminate].
  destruct (compare_value _ _) as [err|[]] eqn:C.
  - intros S. simpl in S. rewrite loginUser_catch_status in S. discriminate S.
  - intros S. split.
    + destruct (hasJwtSecret env) eqn:J; [reflexivity|].
      simpl in S. rewrite (sendUser_no_secret env now _ J) in S. discriminate S.
    + exists user. split; [reflexivity|]. split; [exact C | reflexivity].
  - discriminate.
Qed.

(** C6. The body of a successful register (201) and of a successful login
    (200) has exactly the members _id, name, email, role, profileImageUrl and
    token, in this order, read from a stored user; the token is what
    [jwt.sign] returns for that user's identifier, the configured secret and
    the expiry "7d"; it has no member named password. *)
Theorem success_body_shape `{Externals} (env : Env) (salt : jsstring) (now : Z)
  (b : Body.t) (st : Store) :
  (status (snd (registerUser env salt now b st)) = 201 ->
   exists user secret,
     In user (fst (registerUser env salt now b st)) /\
     JWT_SECRET env = Some secret /\
     json (snd (registerUser env salt now b st)) =
       [ ("_id", JObjectId (User._id user));
         ("name", JString (User.name user));
         ("email", JString (User.email user));
         ("role", JString (User.role user));
         ("profileImageUrl", JValue (User.profileImageUrl user));
         ("token", JString (jwt_sign (User._id user) secret (js "7d") now)) ] /\
     keys (json (snd (registerUser env salt now b st)))
       = ["_id"; "name"; "email"; "role"; "profileImageUrl"; "token"] /\
     member "password" (json (snd (registerUser env salt now b st))) = None) /\
  (status (snd (loginUser env now b st)) = 200 ->
   exists user secret,
     In user (fst (loginUser env now b st)) /\
     JWT_SECRET env = Some secret /\
     json (snd (loginUser env now b st)) =
       [ ("_id", JObjectId (User._id user));
         ("name", JString (User.name user));
         ("email", JString (User.email user));
         ("role", JString (User.role user));
         ("profileImageUrl", JValue (User.profileImageUrl user));
         ("token", JString (jwt_sign (User._id user) secret (js "7d") now)) ] /\
     keys (json (snd (loginUser env now b st)))
       = ["_id"; "name"; "email"; "role"; "profileImageUrl"; "token"] /\
     member "password" (json (snd (loginUser env now b st))) = None).
Proof.
  split.
  - intros S. destruct (registerUser_status_201 env salt now b st S) as (J & _ & E).
    destruct (sendUser_with_secret env now (new_user env salt b st) J)
      as (secret & Hs & Hp).
    rewrite E, Hp. simpl. exists (new_user env salt b st), secret.
    split; [apply in_or_app; right; now left|].
    split; [exact Hs|]. repeat split.
  - intros S.
    destruct (loginUser_status_200 env now b st S) as (J & user & Hf & _ & E).
    destruct (sendUser_with_secret env now user J) as (secret & Hs & Hp).
    rewrite E, Hp. simpl. exists user, secret.
    split; [exact (proj1 (findOne_some _ st user Hf))|].
    split; [exact Hs|]. repeat split.
Qed.

Lemma success_body_shape_witness :
  keys (json (snd (registerUser (ext := Demo.externals) Demo.env (js "salt") 3000
                     (Demo.body "Eve" "eve@x.io" "secret1" None) Demo.store1)))
    = ["_id"; "name"; "email"; "role"; "profileImageUrl"; "token"] /\
  keys (json (snd (loginUser (ext := Demo.externals) Demo.env 3000
                     (Demo.login (Demo.str "A@b.com") (Demo.str "secret1"))
                     Demo.store1)))
    = ["_id"; "name"; "email"; "role"; "profileImageUrl"; "token"].
Proof.
  split.
  - destruct (proj1 (success_body_shape (H := Demo.externals) Demo.env (js "salt")
                       3000 (Demo.body "Eve" "eve@x.io" "secret1" None) Demo.store1)
                eq_refl)
      as (user & secret & _ & _ & _ & K & _).
    exact K.
  - destruct (proj2 (success_body_shape (H := Demo.externals) Demo.env (js "salt")
                       3000 (Demo.login (Demo.str "A@b.com") (Demo.str "secret1"))
                       Demo.store1)
                eq_refl)
      as (user & secret & _ & _ & _ & K & _).
    exact K.
Defined.

(** C5, as stated, fails: with no signing secret configured, a registration
    that passes every check is answered 500 NO_JWT_SECRET, not 401. *)
Lemma no_secret_counterexample :
  hasJwtSecret Demo.env_no_secret = false /\
  snd (registerUser (ext := Demo.externals) Demo.env_no_secret (js "salt") 3000
         (Demo.body "Eve" "eve@x.io" "secret1" None) Demo.store1)
    = reply 500 "NO_JWT_SECRET" "Server misconfigured: JWT_SECRET not set" /\
  status (snd (registerUser (ext := Demo.externals) Demo.env_no_secret (js "salt")
                 3000 (Demo.body "Eve" "eve@x.io" "secret1" None) Demo.store1))
    <> 401.
Proof. split; [reflexivity|]. split; [reflexivity | discriminate]. Qed.

(** C5, amended.  While no signing secret is configured, a register request
    made of strings that passes the field, invite and duplicate checks, and a
    login request with the email and password of a stored user, are answered
    500 with code NO_JWT_SECRET. *)
Theorem no_secret_is_server_error `{Externals} (env : Env) :
  hasJwtSecret env = false ->
  (forall salt now b st,
     register_fields_ok b = true ->
     strings_or_absent b = true ->
     token_supplied b && negb (token_matches env b) = false ->
     UserModel.exists_email (reg_email b) st = false ->
     snd (registerUser env salt now b st)
       = reply 500 "NO_JWT_SECRET" "Server misconfigured: JWT_SECRET not set") /\
  (forall now b st user,
     credentials_supplied b = true ->
     UserModel.findOne (reg_email b) st = Some user ->
     compare_value (or_empty (Body.password b)) (User.password user) = inr true ->
     snd (loginUser env now b st)
       = reply 500 "NO_JWT_SECRET" "Server misconfigured: JWT_SECRET not set").
Proof.
  intros N. split.
  - intros salt now b st F S G E.
    rewrite (registerUser_written env salt now b st F S G E). simpl.
    now rewrite (sendUser_no_secret env now _ N).
  - intros now b st user C Hf Hc.
    rewrite loginUser_paths. unfold reg_email in Hf.
    destruct (normalizeEmail (Body.email b)) as [err|e] eqn:E.
    + unfold credentials_supplied in C. rewrite E in C. discriminate C.
    + rewrite C. simpl. rewrite Hf, Hc.
      simpl. now rewrite (sendUser_no_secret env now _ N).
Qed.

Lemma no_secret_is_server_error_witness :
  snd (registerUser (ext := Demo.externals) Demo.env_no_secret (js "salt") 3000
         (Demo.body "Eve" "eve@x.io" "secret1" None) Demo.store1)
    = reply 500 "NO_JWT_SECRET" "Server misconfigured: JWT_SECRET not set" /\
  snd (loginUser (ext := Demo.externals) Demo.env_no_secret 3000
         (Demo.login (Demo.str "a@b.com") (Demo.str "secret1")) Demo.store1)
    = reply 500 "NO_JWT_SECRET" "Server misconfigured: JWT_SECRET not set".
Proof.
  destruct (no_secret_is_server_error (H := Demo.externals) Demo.env_no_secret
              eq_refl) as (R & L).
  split.
  - apply R; reflexivity.
  - apply (L _ _ _ (Demo.user 1 "Ann" "a@b.com" "salt$secret1" "member"));
      reflexivity.
Defined.

(** C8. Registration is not atomic with respect to token issuance: there is
    a request with valid fields, sent while no signing secret is configured,
    that is answered with an error (500) and yet leaves its user in the
    collection. *)
Theorem registration_not_atomic `{Externals} :
  exists env salt now b st,
    hasJwtSecret env = false /\
    register_fields_ok b = true /\
    status (snd (registerUser env salt now b st)) = 500 /\
    fst (registerUser env salt now b st) = st ++ [new_user env salt b st] /\
    UserModel.findOne (reg_email b)
      (fst (registerUser env salt now b st)) = Some (new_user env salt b st).
Proof.
  exists Demo.env_no_secret, (js "salt"), 3000%Z,
    (Demo.body "Eve" "eve@x.io" "secret1" None), [].
  assert (normalizeEmail (Demo.str "eve@x.io") = inr (js "eve@x.io")) as Ne.
  { unfold normalizeEmail, call_trim, Demo.str.
    change (JsString.trim (js "eve@x.io")) with (js "eve@x.io").
    now rewrite toLowerCase_plain. }
  assert (register_fields_ok (Demo.body "Eve" "eve@x.io" "secret1" None) = true)
    as F.
  { unfold register_fields_ok, Demo.body. cbn [Body.name Body.email Body.password].
    rewrite Ne. reflexivity. }
  split; [reflexivity|]. split; [exact F|].
  rewrite (registerUser_written Demo.env_no_secret (js "salt") 3000
             (Demo.body "Eve" "eve@x.io" "secret1" None) [] F eq_refl eq_refl eq_refl).
  cbn [fst snd]. rewrite (sendUser_no_secret Demo.env_no_secret 3000 _ eq_refl).
  split; [reflexivity|]. split; [reflexivity|].
  unfold UserModel.findOne. cbn [app find new_user User.email].
  now rewrite eqb_refl.
Qed.

(* ------------------------------------------------------------------ *)
(** ** Profile update *)

Lemma conflict_check_is_email_taken `{Externals} salt userId b st user d :
  UserModel.findById userId st = Some user ->
  update_doc salt b user = inr d ->
  truthy_opt (Body.email b)
  && UserModel.exists_other (User._id (UserModel.members d))
       (User.email (UserModel.members d)) st
  = email_taken userId b st.
Proof.
  intros Hf D. destruct (findById_some userId st user Hf) as [_ Hid].
  destruct (update_doc_members salt b user d D) as (Hi & _ & He & _).
  unfold email_taken. rewrite Hi, He, Hid.
  destruct (truthy_opt (Body.email b)); reflexivity.
Qed.

(** In a well-formed collection the unique index lets through every save
    that the handler's own conflict check lets through. *)
Lemma save_passes_index `{Externals} salt userId b st user d :
  store_ok st ->
  UserModel.findById userId st = Some user ->
  update_doc salt b user = inr d ->
  email_taken userId b st = false ->
  UserModel.exists_other (User._id (UserModel.members d))
    (User.email (UserModel.members d)) st = false.
Proof.
  intros (_ & Hun & _) Hf D T.
  destruct (findById_some userId st user Hf) as [Hin Hid].
  destruct (update_doc_members salt b user d D) as (Hi & _ & He & _).
  rewrite Hi, He, Hid. unfold email_taken in T.
  destruct (truthy_opt (Body.email b)); [exact T|].
  destruct (UserModel.exists_other userId (User.email user) st) eqn:E;
    [|reflexivity].
  unfold UserModel.exists_other in E. apply existsb_exists in E.
  destruct E as (v & Hv & Hc). apply andb_true_iff in Hc. destruct Hc as [Hn He'].
  apply negb_true_iff, Nat.eqb_neq in Hn. apply eqb_eq in He'.
  exfalso. apply Hn. rewrite <- Hid. now apply Hun.
Qed.

Lemma overwrite_keeps_others doc st v :
  In v st -> User._id v <> User._id doc -> In v (overwrite doc st).
Proof.
  intros Hin N. unfold overwrite. apply in_map_iff. exists v.
  split; [|exact Hin].
  apply Nat.eqb_neq in N. now rewrite N.
Qed.

Lemma overwrite_has_doc doc st user :
  In user st -> User._id user = User._id doc -> In doc (overwrite doc st).
Proof.
  intros Hin E. unfold overwrite. apply in_map_iff. exists user.
  split; [|exact Hin].
  apply Nat.eqb_eq in E. now rewrite E.
Qed.

(** C9. A profile update that is answered with code WEAK_PASSWORD or with
    code DUP_EMAIL has persisted nothing: the collection is as it was. *)
Theorem profile_update_failure_is_atomic `{Externals} (env : Env) (salt : jsstring)
  (now : Z) (userId : nat) (b : Body.t) (st : Store) :
  code_of (snd (updateUserProfile env salt now userId b st))
    = Some (JString (js "WEAK_PASSWORD")) \/
  code_of (snd (updateUserProfile env salt now userId b st))
    = Some (JString (js "DUP_EMAIL")) ->
  fst (updateUserProfile env salt now userId b st) = st.
Proof.
  rewrite updateUserProfile_paths.
  destruct (UserModel.findById userId st) as [user|]; [|reflexivity].
  destruct (assign_fields b user) as [|d0]; [reflexivity|].
  destruct (weak_password b); [reflexivity|].
  destruct (update_doc salt b user) as [|d]; [reflexivity|].
  destruct (truthy_opt (Body.email b) && _); [reflexivity|].
  destruct (UserModel.invalid d); [reflexivity|].
  destruct (UserModel.exists_other _ _ st); [reflexivity|].
  unfold sendUser, generateToken.
  destruct (hasJwtSecret env); intros [C|C]; discriminate C.
Qed.

Lemma profile_update_failure_is_atomic_witness :
  fst (updateUserProfile (ext := Demo.externals) Demo.env (js "pepper") 3000 2
         (Body.mk (Demo.str "Cyrus") (Demo.str "cy@d.org") (Demo.str "123")
            (Demo.str "/uploads/cy.png") None)
         Demo.store2) = Demo.store2 /\
  fst (updateUserProfile (ext := Demo.externals) Demo.env (js "pepper") 3000 2
         (Body.mk (Demo.str "Cyrus") (Demo.str "A@b.com") (Demo.str "123456")
            None None)
         Demo.store2) = Demo.store2.
Proof.
  split.
  - apply (profile_update_failure_is_atomic (H := Demo.externals)).
    left. reflexivity.
  - apply (profile_update_failure_is_atomic (H := Demo.externals)).
    right. reflexivity.
Defined.

(** A body of strings: every assignment goes through, and this is the
    document handed to [save]. *)
Lemma update_of_strings `{Externals} salt b user :
  strings_or_absent b = true ->
  (exists d0, assign_fields b user = inr d0) /\
  update_doc salt b user = inr (UserModel.mkDoc (updated_user salt b user) None) /\
  User.name (updated_user salt b user)
    = (if truthy_opt (Body.name b) then JsString.trim (str_of (Body.name b))
       else User.name user) /\
  User.password (updated_user salt b user)
    = (if truthy_opt (Body.password b)
       then bcrypt_hash (str_of (Body.password b)) salt
       else User.password user) /\
  User.profileImageUrl (updated_user salt b user)
    = (match Body.profileImageUrl b with
       | Some v => v
       | None => User.profileImageUrl user
       end).
Proof.
  intros S. destruct (strings_or_absent_inv b S) as (Sn & Se & Sp & Si & _).
  unfold updated_user, update_doc, assign_fields.
  destruct (Body.name b) as [[| | |n| |]|]; try discriminate Sn;
    destruct (Body.email b) as [[| | |e| |]|]; try discriminate Se;
    destruct (Body.password b) as [[| | |p| |]|]; try discriminate Sp;
    destruct (Body.profileImageUrl b) as [[| | |i| |]|]; try discriminate Si;
    cbn [truthy_opt truthy_val or_empty str_of];
    try (destruct (JsString.truthy n));
    try (destruct (JsString.truthy e));
    try (destruct (JsString.truthy p));
    cbn [call_trim normalizeEmail hash_value UserModel.set_image
         UserModel.store_image set_name set_email set_password
         UserModel.members UserModel.invalid
         User._id User.name User.email User.password User.profileImageUrl User.role];
    (split; [eexists; reflexivity|]);
    (split; [try reflexivity; now destruct user|]);
    repeat split.
Qed.

(** C7, as stated, fails twice.  User 2 asks for the email of user 1 and for
    a password of three characters; the answer is 400 WEAK_PASSWORD, not 409
    DUP_EMAIL.  And a new name that is a number makes the call of [trim]
    throw: the answer is 500 and nothing is changed. *)
Lemma profile_update_counterexample :
  email_taken (ext := Demo.externals) 2
    (Body.mk None (Demo.str "a@b.com") (Demo.str "123") None None) Demo.store2
    = true /\
  updateUserProfile (ext := Demo.externals) Demo.env (js "pepper") 3000 2
    (Body.mk None (Demo.str "a@b.com") (Demo.str "123") None None) Demo.store2
    = (Demo.store2,
       reply 400 "WEAK_PASSWORD" "Password must be at least 6 characters") /\
  code_of (snd (updateUserProfile (ext := Demo.externals) Demo.env (js "pepper")
                  3000 2
                  (Body.mk None (Demo.str "a@b.com") (Demo.str "123") None None)
                  Demo.store2))
    <> Some (JString (js "DUP_EMAIL")) /\
  updateUserProfile (ext := Demo.externals) Demo.env (js "pepper") 3000 2
    (Body.mk (Some (VNum 5%float)) None None None None) Demo.store2
    = (Demo.store2, reply 500 "SERVER" "Server error").
Proof.
  split; [reflexivity|]. split; [reflexivity|]. split; [discriminate | reflexivity].
Qed.

(** C7, amended.  For a profile update of an existing user, made of strings,
    in a collection the handlers have produced:
    - a new non-empty password of fewer than 6 characters is answered 400
      WEAK_PASSWORD, whatever the new email;
    - otherwise a new non-empty email that, normalised, is the stored email
      of another user is answered 409 DUP_EMAIL;
    - otherwise the document is saved: the other users stay as they were,
      identifier and role are kept, each of name, email, password and
      profileImageUrl that the body does not carry is kept, and a new
      non-empty password is stored as its [bcrypt] hash.
    The two failures leave the collection as it was. *)
Theorem profile_update_rules `{Externals} (env : Env) (salt : jsstring) (now : Z)
  (userId : nat) (b : Body.t) (st : Store) (user : User.t) :
  reachable st ->
  UserModel.findById userId st = Some user ->
  strings_or_absent b = true ->
  (weak_password b = true ->
     updateUserProfile env salt now userId b st
       = (st, reply 400 "WEAK_PASSWORD" "Password must be at least 6 characters")) /\
  (weak_password b = false -> email_taken userId b st = true ->
     updateUserProfile env salt now userId b st
       = (st, reply 409 "DUP_EMAIL" "Email already registered")) /\
  (weak_password b = false -> email_taken userId b st = false ->
     fst (updateUserProfile env salt now userId b st)
       = overwrite (updated_user salt b user) st /\
     In (updated_user salt b user) (fst (updateUserProfile env salt now userId b st)) /\
     (forall v, In v st -> User._id v <> userId ->
                In v (fst (updateUserProfile env salt now userId b st))) /\
     User._id (updated_user salt b user) = User._id user /\
     User.role (updated_user salt b user) = User.role user /\
     (Body.name b = None ->
        User.name (updated_user salt b user) = User.name user) /\
     (Body.email b = None ->
        User.email (updated_user salt b user) = User.email user) /\
     (Body.password b = None ->
        User.password (updated_user salt b user) = User.password user) /\
     (Body.profileImageUrl b = None ->
        User.profileImageUrl (updated_user salt b user) = User.profileImageUrl user) /\
     (truthy_opt (Body.password b) = true ->
        exists p, Body.password b = Some (VStr p) /\
                  User.password (updated_user salt b user) = bcrypt_hash p salt)).
Proof.
  intros R Hf S. pose proof (reachable_store_ok st R) as Hok.
  destruct (findById_some userId st user Hf) as [Hin Hid].
  destruct (update_of_strings salt b user S) as ((d0 & A) & D & Hn & Hp & Hi).
  destruct (update_doc_members salt b user _ D) as (_ & _ & He & _).
  cbn [UserModel.members] in He.
  split; [|split].
  - intros W. now rewrite updateUserProfile_paths, Hf, A, W.
  - intros W T.
    rewrite updateUserProfile_paths, Hf, A, W, D.
    now rewrite (conflict_check_is_email_taken salt userId b st user _ Hf D), T.
  - intros W T.
    assert (fst (updateUserProfile env salt now userId b st)
            = overwrite (updated_user salt b user) st) as E.
    { rewrite updateUserProfile_paths, Hf, A, W, D.
      rewrite (conflict_check_is_email_taken salt userId b st user _ Hf D), T.
      cbn [UserModel.invalid].
      now rewrite (save_passes_index salt userId b st user _ Hok Hf D T). }
    rewrite E. split; [reflexivity|]. split; [|split].
    + apply (overwrite_has_doc _ st user Hin). now rewrite updated_user_id.
    + intros v Hv N. apply overwrite_keeps_others; [exact Hv|].
      now rewrite updated_user_id, Hid.
    + split; [apply updated_user_id|]. split; [apply updated_user_role|].
      split; [|split; [|split; [|split]]].
      * intros N. now rewrite Hn, N.
      * intros N. now rewrite He, N.
      * intros N. now rewrite Hp, N.
      * intros N. now rewrite Hi, N.
      * intros P. rewrite Hp, P.
        destruct (strings_or_absent_inv b S) as (_ & _ & Sp & _).
        destruct (Body.password b) as [[]|]; try discriminate.
        eexists. split; reflexivity.
Qed.

Lemma profile_update_rules_witness :
  updateUserProfile (ext := Demo.externals) Demo.env (js "pepper") 3000 2
    (Body.mk None (Demo.str "new@d.org") (Demo.str "123") None None) Demo.store2
    = (Demo.store2,
       reply 400 "WEAK_PASSWORD" "Password must be at least 6 characters") /\
  updateUserProfile (ext := Demo.externals) Demo.env (js "pepper") 3000 2
    (Body.mk None (Demo.str " A@b.com") (Demo.str "123456") None None) Demo.store2
    = (Demo.store2, reply 409 "DUP_EMAIL" "Email already registered") /\
  fst (updateUserProfile (ext := Demo.externals) Demo.env (js "pepper") 3000 2
         (Body.mk (Demo.str " Cyrus ") None (Demo.str "123456") None None)
         Demo.store2)
    = [ Demo.user 1 "Ann" "a@b.com" "salt$secret1" "member";
        Demo.user 2 "Cyrus" "c@d.org" "pepper$123456" "member" ].
Proof.
  assert (reachable (ext := Demo.externals) Demo.store2) as R
    by (apply (reach_register (ext := Demo.externals)),
              (reach_register (ext := Demo.externals)), reach_empty).
  split; [|split].
  - destruct (profile_update_rules (H := Demo.externals) Demo.env (js "pepper")
                3000 2
                (Body.mk None (Demo.str "new@d.org") (Demo.str "123") None None)
                Demo.store2
                (Demo.user 2 "Cy" "c@d.org" "salt$secret2" "member")
                R eq_refl eq_refl)
      as (W & _ & _).
    exact (W eq_refl).
  - destruct (profile_update_rules (H := Demo.externals) Demo.env (js "pepper")
                3000 2
                (Body.mk None (Demo.str " A@b.com") (Demo.str "123456") None None)
                Demo.store2
                (Demo.user 2 "Cy" "c@d.org" "salt$secret2" "member")
                R eq_refl eq_refl)
      as (_ & T & _).
    exact (T eq_refl eq_refl).
  - destruct (profile_update_rules (H := Demo.externals) Demo.env (js "pepper")
                3000 2
                (Body.mk (Demo.str " Cyrus ") None (Demo.str "123456") None None)
                Demo.store2
                (Demo.user 2 "Cy" "c@d.org" "salt$secret2" "member")
                R eq_refl eq_refl)
      as (_ & _ & S).
    destruct (S eq_refl eq_refl) as (E & _).
    exact (eq_trans E eq_refl).
Defined.

(* ------------------------------------------------------------------ *)
(** ** Task progress *)

Module TaskFacts.

Import Task.




(** The worked example of the specification: four items. *)
Example progress_two_of_four :
  progress_of [mkItem (js "a") true; mkItem (js "b") true;
               mkItem (js "c") false; mkItem (js "d") false]
    = 50%Z.
Proof. reflexivity. Qed.

Example progress_three_of_four :
  progress (updateChecklist (createTask [])
              [mkItem (js "a") true; mkItem (js "b") true;
               mkItem (js "c") true; mkItem (js "d") false])
    = 75%Z.
Proof. reflexivity. Qed.

Example progress_one_of_eight :
  progress_of [mkItem (js "a") true; mkItem (js "b") false;
               mkItem (js "c") false; mkItem (js "d") false;
               mkItem (js "e") false; mkItem (js "f") false;
               mkItem (js "g") false; mkItem (js "h") false]
    = 13%Z.
Proof. reflexivity. Qed.

End TaskFacts.

(* ================================================================== *)
(** * Further properties of the controller *)

(* ------------------------------------------------------------------ *)
(** ** normalizeEmail *)

(** X1. A normalised email is a normal form: normalising it again,
    trimming it or lower-casing it gives it back. *)
Theorem normalizeEmail_normal_form `{Externals} (o : option jsval)
  (e : jsstring) :
  normalizeEmail o = inr e ->
  normalizeEmail (Some (VStr e)) = inr e /\
  JsString.trim e = e /\
  toLowerCase e = e.
Proof.
  intros E. split; [exact (normalizeEmail_idem o e E)|].
  destruct (normalizeEmail_image o e E) as (s & ->). split.
  - now rewrite toLowerCase_trim, trim_idem.
  - apply toLowerCase_idem.
Qed.

Lemma normalizeEmail_normal_form_witness :
  normalizeEmail (ext := Demo.externals) (Demo.str "eve@x.io")
    = inr (js "eve@x.io") /\
  JsString.trim (js "eve@x.io") = js "eve@x.io".
Proof.
  destruct (normalizeEmail_normal_form (H := Demo.externals)
              (Some (VStr ([160%N; 32%N] ++ js "Eve@X.io" ++ [9%N])))
              (js "eve@x.io") eq_refl) as (N & T & _).
  split; [exact N | exact T].
Defined.

(** X2. normalizeEmail ignores white space around the address (any white
    space of ECMAScript, NBSP and the byte order mark included) and the case
    of letters: two strings that [toLowerCase] maps to the same string
    normalise to the same email, whatever blanks surround the first. *)
Theorem normalizeEmail_ignores_case_and_blanks `{Externals}
  (pre s1 post s2 : jsstring) :
  JsString.all_ws pre = true ->
  JsString.all_ws post = true ->
  toLowerCase s1 = toLowerCase s2 ->
  normalizeEmail (Some (VStr (pre ++ s1 ++ post))) = normalizeEmail (Some (VStr s2)).
Proof.
  intros Wpre Wpost E. unfold normalizeEmail, call_trim.
  rewrite (trim_blank_around pre s1 post Wpre Wpost).
  now rewrite <- !toLowerCase_trim, E.
Qed.

Lemma normalizeEmail_ignores_case_and_blanks_witness :
  normalizeEmail (ext := Demo.externals)
    (Some (VStr ([160%N; 32%N] ++ (201%N :: js "ve@B.Com") ++ [65279%N])))
  = normalizeEmail (ext := Demo.externals) (Some (VStr (233%N :: js "ve@b.com"))).
Proof.
  apply (normalizeEmail_ignores_case_and_blanks (H := Demo.externals)
           [160%N; 32%N] (201%N :: js "ve@B.Com") [65279%N]
           (233%N :: js "ve@b.com"));
    reflexivity.
Defined.

(* ------------------------------------------------------------------ *)
(** ** The email pattern *)

Section RegexFacts.

Import Regex.

Lemma matches_empty_nullable (r : regex) (s : jsstring) :
  matches r s -> s = [] -> nullable r = true.
Proof.
  induction 1 as [|p c Hp|r1 r2 s1 s2 _ IH1 _ IH2|r1 r2 s _ IH|r1 r2 s _ IH
                  |r|r s1 s2 _ _ _ _]; intros E; simpl; try reflexivity.
  - discriminate E.
  - apply app_eq_nil in E. destruct E as [E1 E2].
    now rewrite (IH1 E1), (IH2 E2).
  - now rewrite (IH E).
  - rewrite (IH E). apply orb_true_r.
Qed.

Lemma nullable_matches_empty (r : regex) : nullable r = true -> matches r [].
Proof.
  induction r as [| |p|r1 IH1 r2 IH2|r1 IH1 r2 IH2|r IH]; simpl; intros N;
    try discriminate N.
  - constructor.
  - apply andb_true_iff in N. destruct N as [N1 N2].
    change (@nil N) with (@nil N ++ []). constructor; auto.
  - apply orb_true_iff in N. destruct N as [N|N].
    + apply matches_alt_l. auto.
    + apply matches_alt_r. auto.
  - constructor.
Qed.

Lemma deriv_sound (c : N) (r : regex) :
  forall s, matches (deriv c r) s -> matches r (c :: s).
Proof.
  induction r as [| |p|r1 IH1 r2 IH2|r1 IH1 r2 IH2|r IH]; simpl; intros s M.
  - inversion M.
  - inversion M.
  - destruct (p c) eqn:P; inversion M; subst. now constructor.
  - destruct (nullable r1) eqn:N.
    + inversion M as [| | | ? ? ? ML | ? ? ? MR | |]; subst.
      * inversion ML as [| |? ? s1 s2 M1 M2| | | |]; subst.
        change (c :: s1 ++ s2) with ((c :: s1) ++ s2).
        constructor; auto.
      * change (c :: s) with ([] ++ c :: s).
        constructor; [now apply nullable_matches_empty | auto].
    + inversion M as [| |? ? s1 s2 M1 M2| | | |]; subst.
      change (c :: s1 ++ s2) with ((c :: s1) ++ s2).
      constructor; auto.
  - inversion M; subst; [apply matches_alt_l | apply matches_alt_r]; auto.
  - inversion M as [| |? ? s1 s2 M1 M2| | | |]; subst.
    change (c :: s1 ++ s2) with ((c :: s1) ++ s2).
    apply matches_star_app; auto.
Qed.

Lemma deriv_complete (r : regex) (s0 : jsstring) :
  matches r s0 -> forall c s, s0 = c :: s -> matches (deriv c r) s.
Proof.
  induction 1 as [|p x Hp|r1 r2 s1 s2 M1 IH1 M2 IH2|r1 r2 s0 _ IH|r1 r2 s0 _ IH
                  |r|r s1 s2 M1 IH1 M2 IH2]; intros c s E; simpl.
  - discriminate E.
  - injection E as Ex Es. subst c s. rewrite Hp. constructor.
  - destruct s1 as [|y s1'].
    + simpl in E. rewrite (matches_empty_nullable r1 [] M1 eq_refl).
      apply matches_alt_r. now apply IH2.
    + simpl in E. injection E as Ey Es. subst c s.
      assert (matches (Cat (deriv y r1) r2) (s1' ++ s2)) as K
        by (constructor; [now apply IH1 | exact M2]).
      destruct (nullable r1); [now apply matches_alt_l | exact K].
  - apply matches_alt_l. now apply IH.
  - apply matches_alt_r. now apply IH.
  - discriminate E.
  - destruct s1 as [|y s1'].
    + simpl in E. now apply IH2.
    + simpl in E. injection E as Ey Es. subst c s.
      constructor; [now apply IH1 | exact M2].
Qed.

(** The derivative matcher decides the denotation. *)
Lemma test_matches (s : jsstring) : forall r, test r s = true <-> matches r s.
Proof.
  induction s as [|c s IH]; intros r; simpl.
  - split; [apply nullable_matches_empty|].
    intros M. now apply (matches_empty_nullable r []).
  - rewrite IH. split; [apply deriv_sound|].
    intros M. now apply (deriv_complete r (c :: s)).
Qed.

Lemma matches_star_non_ws (s : jsstring) :
  matches (Star non_ws) s <-> JsString.no_ws s = true.
Proof.
  split.
  - intros M. remember (Star non_ws) as r eqn:R.
    induction M as [| | | | | |r0 s1 s2 M1 _ M2 IH2]; try discriminate R.
    + reflexivity.
    + injection R as ->. specialize (IH2 eq_refl).
      unfold non_ws in M1. inversion M1 as [|? c Hc| | | | |]; subst.
      simpl. now rewrite Hc.
  - induction s as [|c s IH]; simpl; intros N.
    + constructor.
    + apply andb_true_iff in N. destruct N as [Nc Ns].
      change (c :: s) with ([c] ++ s).
      apply matches_star_app; [|auto].
      unfold non_ws. now constructor.
Qed.

Lemma matches_plus_non_ws (s : jsstring) :
  matches (Plus non_ws) s <-> s <> [] /\ JsString.no_ws s = true.
Proof.
  unfold Plus. split.
  - intros M. inversion M as [| |? ? s1 s2 M1 M2| | | |]; subst.
    apply matches_star_non_ws in M2.
    unfold non_ws in M1. inversion M1 as [|? c Hc| | | | |]; subst.
    simpl. split; [discriminate | now rewrite Hc].
  - intros [NE N]. destruct s as [|c s]; [congruence|].
    simpl in N. apply andb_true_iff in N. destruct N as [Nc Ns].
    change (c :: s) with ([c] ++ s).
    constructor; [unfold non_ws; now constructor|].
    now apply matches_star_non_ws.
Qed.

Lemma matches_lit (a : ascii) (s : jsstring) :
  matches (lit a) s <-> s = [N_of_ascii a].
Proof.
  unfold lit. split.
  - intros M. inversion M as [|? c Hc| | | | |]; subst.
    apply N.eqb_eq in Hc. now subst.
  - intros ->. constructor. apply N.eqb_refl.
Qed.

Lemma matches_email_re_shape (s : jsstring) :
  matches email_re s -> email_shaped s.
Proof.
  unfold email_re, email_shaped. intros M.
  inversion M as [| |? ? a t1 Ma M1| | | |]; subst.
  inversion M1 as [| |? ? at_ t2 Mat M2| | | |]; subst.
  inversion M2 as [| |? ? b t3 Mb M3| | | |]; subst.
  inversion M3 as [| |? ? dot c Mdot Mc| | | |]; subst.
  apply matches_plus_non_ws in Ma, Mb, Mc.
  apply matches_lit in Mat, Mdot. subst at_ dot.
  destruct Ma as [Na Wa], Mb as [Nb Wb], Mc as [Nc Wc].
  exists a, b, c. repeat split; assumption.
Qed.

(** X3. The pattern [/^\S+@\S+\.\S+$/] of registerUser accepts exactly the
    strings made of three non-empty parts without white space, the first
    two joined by an at sign and the last two by a dot. *)
Theorem email_re_accepts_shape (s : jsstring) :
  test email_re s = true <-> email_shaped s.
Proof.
  rewrite test_matches. split.
  - apply matches_email_re_shape.
  - unfold email_re, email_shaped.
    intros (a & b & c & -> & Na & Nb & Nc & Wa & Wb & Wc).
    constructor; [now apply matches_plus_non_ws|].
    constructor; [now apply matches_lit|].
    constructor; [now apply matches_plus_non_ws|].
    constructor; [now apply matches_lit | now apply matches_plus_non_ws].
Qed.

Lemma email_re_accepts_shape_witness :
  test email_re (js "ann@b.com") = true /\
  email_shaped (js "a@b@c.d.e") /\
  ~ email_shaped (js "a" ++ [160%N] ++ js "b@c.d").
Proof.
  split; [|split].
  - apply (proj2 (email_re_accepts_shape (js "ann@b.com"))).
    exists (js "ann"), (js "b"), (js "com"). repeat split; discriminate.
  - apply (proj1 (email_re_accepts_shape (js "a@b@c.d.e"))). reflexivity.
  - intros S. apply (proj2 (email_re_accepts_shape _)) in S. discriminate S.
Defined.

End RegexFacts.

(* ------------------------------------------------------------------ *)
(** ** registerUser and loginUser: blank fields, outcomes, round trips *)

(** X4. When the name is a string or falsy and the email is a string or
    absent, registerUser answers 400 MISSING_FIELDS, before any other check
    and without writing, if the name or the email is empty or made of white
    space only, or the password is absent, empty or any other falsy value. *)
Theorem register_blank_is_missing {ext : Externals} (env : Env) (salt : jsstring)
  (now : Z) (b : Body.t) (st : Store) (n : jsstring) :
  or_empty (Body.name b) = VStr n ->
  string_or_absent (Body.email b) = true ->
  JsString.all_ws n = true \/
  JsString.all_ws (str_of (Body.email b)) = true \/
  truthy_opt (Body.password b) = false ->
  registerUser env salt now b st
    = (st, reply 400 "MISSING_FIELDS" "Name, email and password are required").
Proof.
  intros Hn Se Hblank.
  unfold registerUser, try_catch, registerUser_try, bind, lift.
  rewrite Hn. cbn [call_trim].
  destruct (normalizeEmail_string _ Se) as (e & He). rewrite He.
  assert (negb (JsString.truthy (JsString.trim n))
          || negb (JsString.truthy e)
          || negb (truthy_val (or_empty (Body.password b))) = true) as G.
  { destruct Hblank as [W|[W|W]].
    - now rewrite (trim_blank _ W).
    - assert (e = []) as ->.
      { destruct (Body.email b) as [[]|]; try discriminate Se.
        - cbn [str_of] in W. rewrite (normalizeEmail_blank _ W) in He. congruence.
        - rewrite normalizeEmail_absent in He. congruence. }
      simpl. apply orb_true_iff. left. apply orb_true_r.
    - rewrite or_empty_truthy, W. apply orb_true_r. }
  now rewrite G.
Qed.

Lemma register_blank_is_missing_witness :
  registerUser (ext := Demo.externals) Demo.env (js "salt") 3000
    (Body.mk (Some (VStr [160%N; 32%N])) (Demo.str "eve@x.io")
       (Demo.str "secret1") None (Demo.str "guess")) Demo.store1
    = (Demo.store1,
       reply 400 "MISSING_FIELDS" "Name, email and password are required").
Proof.
  apply (register_blank_is_missing (ext := Demo.externals) Demo.env (js "salt")
           3000
           (Body.mk (Some (VStr [160%N; 32%N])) (Demo.str "eve@x.io")
              (Demo.str "secret1") None (Demo.str "guess"))
           Demo.store1 [160%N; 32%N]).
  - reflexivity.
  - reflexivity.
  - left. reflexivity.
Defined.

(** X5. loginUser answers 400 MISSING_FIELDS, without any lookup, also when
    the email is a string of white space only. *)
Theorem login_blank_email_is_missing {ext : Externals} (env : Env) (now : Z)
  (b : Body.t) (st : Store) (s : jsstring) :
  Body.email b = Some (VStr s) ->
  JsString.all_ws s = true ->
  loginUser env now b st
    = (st, reply 400 "MISSING_FIELDS" "Email and password are required").
Proof.
  intros E W. rewrite loginUser_paths. unfold credentials_supplied.
  now rewrite E, (normalizeEmail_blank _ W).
Qed.

Lemma login_blank_email_is_missing_witness :
  loginUser (ext := Demo.externals) Demo.env 3000
    (Demo.login (Some (VStr [160%N; 9%N])) (Demo.str "secret1")) Demo.store1
    = (Demo.store1, reply 400 "MISSING_FIELDS" "Email and password are required").
Proof.
  apply (login_blank_email_is_missing (ext := Demo.externals) Demo.env 3000
           (Demo.login (Some (VStr [160%N; 9%N])) (Demo.str "secret1"))
           Demo.store1 [160%N; 9%N]);
    reflexivity.
Defined.

Lemma registerUser_added_inv {ext : Externals} env salt now b st u :
  fst (registerUser env salt now b st) = st ++ [u] ->
  u = new_user env salt b st /\
  register_fields_ok b = true /\
  token_supplied b && negb (token_matches env b) = false /\
  UserModel.exists_email (reg_email b) st = false /\
  (exists h, hash_value (or_empty (Body.password b)) salt = inr h).
Proof.
  intros E. split; [now apply (registerUser_added env salt now b st u)|].
  destruct (register_fields_ok b) eqn:F.
  - split; [reflexivity|].
    rewrite (registerUser_good_fields env salt now b st F) in E.
    destruct (token_supplied b && negb (token_matches env b)).
    + now apply snoc_unchanged_absurd in E.
    + split; [reflexivity|].
      destruct (UserModel.exists_email _ st);
        [now apply snoc_unchanged_absurd in E|].
      split; [reflexivity|].
      destruct (hash_value _ salt) as [|h];
        [now apply snoc_unchanged_absurd in E|].
      now exists h.
  - rewrite (proj1 (registerUser_bad_fields env salt now b st F)) in E.
    now apply snoc_unchanged_absurd in E.
Qed.

(** The password of a request whose hashing went through is a string. *)
Lemma hashed_password_is_string {ext : Externals} (o : option jsval) salt h :
  truthy_val (or_empty o) = true ->
  hash_value (or_empty o) salt = inr h ->
  exists p, o = Some (VStr p) /\ or_empty o = VStr p /\ h = bcrypt_hash p salt.
Proof.
  rewrite or_empty_truthy. intros T Hh.
  destruct (or_empty_of_truthy o T) as (v & Eo & Ev). rewrite Ev in Hh.
  destruct v; try discriminate Hh. injection Hh as <-.
  eexists. split; [exact Eo|]. split; [exact Ev | reflexivity].
Qed.

(** X6. Whatever registerUser adds to the collection is a well-formed
    document: its email is normalised and has the shape the pattern asks for
    and belonged to no user before, its name is trimmed and not empty, its
    password is the bcrypt hash of a password of at least six characters, its
    identifier is new, and its role is admin or member. *)
Theorem register_creates_well_formed {ext : Externals} (env : Env)
  (salt : jsstring) (now : Z) (b : Body.t) (st : Store) (u : User.t) :
  fst (registerUser env salt now b st) = st ++ [u] ->
  email_shaped (User.email u) /\
  normalizeEmail (Some (VStr (User.email u))) = inr (User.email u) /\
  UserModel.exists_email (User.email u) st = false /\
  User.name u <> [] /\ JsString.trim (User.name u) = User.name u /\
  (exists p, Body.password b = Some (VStr p) /\
             User.password u = bcrypt_hash p salt /\
             6 <= List.length p) /\
  ~ In (User._id u) (map User._id st) /\
  (User.role u = js "admin" \/ User.role u = js "member").
Proof.
  intros E.
  destruct (registerUser_added_inv env salt now b st u E)
    as (-> & F & _ & X & (h & Hh)).
  destruct (fields_ok_inv b F) as (Hn & He & Hl & Tn & Te & Tp & Tr).
  destruct (hashed_password_is_string _ salt h Tp Hh) as (p & Ep & Op & ->).
  unfold new_user. cbn [User.email User.name User.password User._id User.role].
  repeat split.
  - now apply matches_email_re_shape, test_matches.
  - now apply (normalizeEmail_idem (Body.email b)).
  - exact X.
  - now apply truthy_nonempty.
  - unfold reg_name in *. unfold call_trim in *.
    destruct (or_empty (Body.name b)); try discriminate Hn.
    apply trim_idem.
  - exists p. rewrite Hh. split; [exact Ep|]. split; [reflexivity|].
    rewrite Op in Hl. unfold length_lt in Hl.
    injection Hl as Hl. now apply Nat.ltb_ge in Hl.
  - apply fresh_id_new.
  - destruct (token_supplied b && token_matches env b); [now left | now right].
Qed.

Lemma register_creates_well_formed_witness :
  email_shaped (js "eve@x.io") /\
  (exists p, Demo.str "secret1" = Some (VStr p) /\
             js "salt$secret1" = bcrypt_hash (Externals := Demo.externals) p (js "salt") /\
             6 <= List.length p).
Proof.
  destruct (register_creates_well_formed (ext := Demo.externals) Demo.env
              (js "salt") 3000
              (Demo.body " Eve " " Eve@X.io" "secret1" None) Demo.store1
              (Demo.user 2 "Eve" "eve@x.io" "salt$secret1" "member") eq_refl)
    as (S & _ & _ & _ & _ & L & _).
  split; [exact S | exact L].
Defined.

(** X7. registerUser writes only when it answers 201 or 500.  Either the
    collection is as it was, and the answer is 400, 403, 409 or 500; or
    exactly one document is appended, and the answer is 201 when a signing
    secret is configured and 500 NO_JWT_SECRET when none is. *)
Theorem register_outcomes {ext : Externals} (env : Env) (salt : jsstring)
  (now : Z) (b : Body.t) (st : Store) :
  (fst (registerUser env salt now b st) = st /\
   (status (snd (registerUser env salt now b st)) = 400 \/
    status (snd (registerUser env salt now b st)) = 403 \/
    status (snd (registerUser env salt now b st)) = 409 \/
    status (snd (registerUser env salt now b st)) = 500)) \/
  (fst (registerUser env salt now b st) = st ++ [new_user env salt b st] /\
   ((hasJwtSecret env = true /\
     status (snd (registerUser env salt now b st)) = 201) \/
    (hasJwtSecret env = false /\
     snd (registerUser env salt now b st)
       = reply 500 "NO_JWT_SECRET" "Server misconfigured: JWT_SECRET not set"))).
Proof.
  assert (forall err, status (registerUser_catch err) = 400 \/
                      status (registerUser_catch err) = 403 \/
                      status (registerUser_catch err) = 409 \/
                      status (registerUser_catch err) = 500) as Hc.
  { intros err. unfold registerUser_catch.
    destruct (match err_code err with Some c => Z.eqb c 11000 | None => false end);
      [simpl; auto|].
    destruct (JsString.eqb _ _); [simpl; auto|].
    destruct (_ && _); simpl; auto. }
  destruct (register_fields_ok b) eqn:F.
  - rewrite (registerUser_good_fields env salt now b st F).
    destruct (token_supplied b && negb (token_matches env b));
      [left; simpl; auto|].
    destruct (UserModel.exists_email _ st); [left; simpl; auto|].
    destruct (hash_value _ salt); [left; split; [reflexivity | apply Hc]|].
    destruct (UserModel.store_image _); [left; split; [reflexivity | apply Hc]|].
    right. split; [reflexivity|]. cbn [snd].
    destruct (hasJwtSecret env) eqn:J.
    + left. split; [reflexivity|].
      destruct (sendUser_with_secret env now (new_user env salt b st) J)
        as (secret & _ & ->).
      reflexivity.
    + right. split; [reflexivity|].
      now rewrite (sendUser_no_secret env now _ J).
  - destruct (registerUser_bad_fields env salt now b st F) as [S [C|C]].
    + left. auto.
    + left. split; [exact S|]. rewrite C. simpl. auto.
Qed.

Lemma findOne_appended e st u :
  UserModel.exists_email e st = false ->
  User.email u = e ->
  UserModel.findOne e (st ++ [u]) = Some u.
Proof.
  intros X E. unfold UserModel.findOne.
  induction st as [|v st IH]; simpl.
  - apply eqb_eq in E. now rewrite E.
  - unfold UserModel.exists_email in X. simpl in X.
    apply orb_false_iff in X. destruct X as [Xv Xs].
    rewrite Xv. now apply IH.
Qed.

(** X8. The email of a user that registerUser has just stored is taken,
    also when that registration itself was answered with an error: the
    registration that comes next, if it passes the field and invite checks
    and its email normalises to the same string, is answered 409 DUP_EMAIL
    and writes nothing. *)
Theorem register_twice_is_duplicate {ext : Externals} (env1 env2 : Env)
  (salt1 salt2 : jsstring) (now1 now2 : Z) (b1 b2 : Body.t) (st : Store)
  (u : User.t) :
  fst (registerUser env1 salt1 now1 b1 st) = st ++ [u] ->
  register_fields_ok b2 = true ->
  token_supplied b2 && negb (token_matches env2 b2) = false ->
  normalizeEmail (Body.email b2) = normalizeEmail (Body.email b1) ->
  registerUser env2 salt2 now2 b2 (fst (registerUser env1 salt1 now1 b1 st))
    = (fst (registerUser env1 salt1 now1 b1 st),
       reply 409 "DUP_EMAIL" "Email already registered").
Proof.
  intros E F G N.
  destruct (registerUser_added_inv env1 salt1 now1 b1 st u E) as (-> & _).
  rewrite E, (registerUser_good_fields env2 salt2 now2 b2 _ F), G.
  rewrite (exists_email_true _ _ (new_user env1 salt1 b1 st)); [reflexivity| |].
  - apply in_or_app. right. now left.
  - unfold new_user, reg_email. cbn [User.email]. now rewrite N.
Qed.

Lemma register_twice_is_duplicate_witness :
  registerUser (ext := Demo.externals) Demo.env (js "pepper") 4000
    (Demo.body "Eva" " EVE@x.io " "another1" None)
    (fst (registerUser (ext := Demo.externals) Demo.env_no_secret (js "salt") 3000
            (Demo.body "Eve" "eve@x.io" "secret1" None) Demo.store1))
  = (fst (registerUser (ext := Demo.externals) Demo.env_no_secret (js "salt") 3000
            (Demo.body "Eve" "eve@x.io" "secret1" None) Demo.store1),
     reply 409 "DUP_EMAIL" "Email already registered").
Proof.
  apply (register_twice_is_duplicate (ext := Demo.externals)
           Demo.env_no_secret Demo.env (js "salt") (js "pepper") 3000 4000
           (Demo.body "Eve" "eve@x.io" "secret1" None)
           (Demo.body "Eva" " EVE@x.io " "another1" None) Demo.store1
           (Demo.user 2 "Eve" "eve@x.io" "salt$secret1" "member"));
    reflexivity.
Defined.

(** X9. Register, then log in.  After a registration answered 201, a login
    with an email that normalises to the same string and with the same
    password is answered 200 for the user just stored, provided bcrypt
    accepts the password against the hash it made of it: the body names the
    same identifier, name, email, role and profile image as the
    registration's, with a token signed when the login is served. *)
Theorem register_then_login {ext : Externals} (env : Env) (salt : jsstring)
  (now1 now2 : Z) (b b' : Body.t) (st : Store) :
  status (snd (registerUser env salt now1 b st)) = 201 ->
  (forall p, Body.password b = Some (VStr p) ->
             bcrypt_compare p (bcrypt_hash p salt) = true) ->
  normalizeEmail (Body.email b') = normalizeEmail (Body.email b) ->
  or_empty (Body.password b') = or_empty (Body.password b) ->
  exists secret,
    JWT_SECRET env = Some secret /\
    snd (registerUser env salt now1 b st) =
      mkResponse 201
        [ ("_id", JObjectId (User._id (new_user env salt b st)));
          ("name", JString (User.name (new_user env salt b st)));
          ("email", JString (User.email (new_user env salt b st)));
          ("role", JString (User.role (new_user env salt b st)));
          ("profileImageUrl", JValue (User.profileImageUrl (new_user env salt b st)));
          ("token", JString (jwt_sign (User._id (new_user env salt b st))
                               secret (js "7d") now1)) ] /\
    loginUser env now2 b' (fst (registerUser env salt now1 b st)) =
      (fst (registerUser env salt now1 b st),
       mkResponse 200
        [ ("_id", JObjectId (User._id (new_user env salt b st)));
          ("name", JString (User.name (new_user env salt b st)));
          ("email", JString (User.email (new_user env salt b st)));
          ("role", JString (User.role (new_user env salt b st)));
          ("profileImageUrl", JValue (User.profileImageUrl (new_user env salt b st)));
          ("token", JString (jwt_sign (User._id (new_user env salt b st))
                               secret (js "7d") now2)) ]).
Proof.
  intros S C Ne Pe.
  destruct (registerUser_status_201 env salt now1 b st S) as (J & F & E).
  assert (fst (registerUser env salt now1 b st)
          = st ++ [new_user env salt b st]) as Est by now rewrite E.
  destruct (registerUser_added_inv env salt now1 b st _ Est)
    as (_ & _ & _ & X & (h & Hh)).
  destruct (fields_ok_inv b F) as (_ & He & _ & _ & Te & Tp & _).
  destruct (hashed_password_is_string _ salt h Tp Hh) as (p & Ep & Op & ->).
  destruct (sendUser_with_secret env now1 (new_user env salt b st) J)
    as (secret & Hs & Hsend1).
  destruct (sendUser_with_secret env now2 (new_user env salt b st) J)
    as (secret' & Hs' & Hsend2).
  rewrite Hs in Hs'. injection Hs' as <-.
  exists secret. split; [exact Hs|].
  rewrite E. cbn [fst snd]. rewrite Hsend1. split; [reflexivity|].
  rewrite loginUser_paths, Ne, He. unfold credentials_supplied.
  rewrite Ne, He, Pe, Te, Tp. cbn [negb andb].
  rewrite (findOne_appended _ st (new_user env salt b st) X eq_refl).
  assert (User.password (new_user env salt b st) = bcrypt_hash p salt) as Pw
    by (unfold new_user; cbn [User.password]; now rewrite Hh).
  rewrite Pw.
  rewrite Op. cbn [compare_value]. rewrite (C p Ep).
  cbn [answer]. now rewrite Hsend2.
Qed.

Lemma register_then_login_witness :
  status
    (snd (loginUser (ext := Demo.externals) Demo.env 4000
            (Demo.login (Demo.str " Eve@X.io ") (Demo.str "secret1"))
            (fst (registerUser (ext := Demo.externals) Demo.env (js "salt") 3000
                    (Demo.body "Eve" "eve@x.io" "secret1" None) Demo.store1))))
  = 200.
Proof.
  destruct (register_then_login (ext := Demo.externals) Demo.env (js "salt")
              3000 4000
              (Demo.body "Eve" "eve@x.io" "secret1" None)
              (Demo.login (Demo.str " Eve@X.io ") (Demo.str "secret1"))
              Demo.store1 eq_refl)
    as (secret & _ & _ & L).
  - intros p Ep. injection Ep as <-. reflexivity.
  - reflexivity.
  - reflexivity.
  - exact (f_equal (fun r => status (snd r)) L).
Defined.

(** X10. loginUser answers 200 only if a stored user has the request's
    normalised email, the request's password is a string that bcrypt accepts
    against that user's stored hash, and a signing secret is configured. *)
Theorem login_success_needs_match {ext : Externals} (env : Env) (now : Z)
  (b : Body.t) (st : Store) :
  status (snd (loginUser env now b st)) = 200 ->
  hasJwtSecret env = true /\
  exists user p,
    In user st /\
    normalizeEmail (Body.email b) = inr (User.email user) /\
    Body.password b = Some (VStr p) /\
    bcrypt_compare p (User.password user) = true.
Proof.
  intros S. split; [exact (proj1 (loginUser_status_200 env now b st S))|].
  rewrite loginUser_paths in S.
  destruct (normalizeEmail (Body.email b)) as [err|e] eqn:E.
  { simpl in S. rewrite loginUser_catch_status in S. discriminate S. }
  destruct (negb (credentials_supplied b)) eqn:Cr; [discriminate S|].
  destruct (UserModel.findOne e st) as [user|] eqn:Fd; [|discriminate S].
  destruct (compare_value _ _) as [err|[]] eqn:C.
  - simpl in S. rewrite loginUser_catch_status in S. discriminate S.
  - destruct (findOne_some _ st user Fd) as [Hin He].
    apply negb_false_iff in Cr. unfold credentials_supplied in Cr.
    rewrite E in Cr. apply andb_true_iff in Cr. destruct Cr as [_ Tp].
    rewrite or_empty_truthy in Tp.
    destruct (or_empty_of_truthy _ Tp) as (v & Ev & Eo). rewrite Eo in C.
    destruct v; try discriminate C. injection C as C.
    exists user, j. rewrite He. repeat split; assumption.
  - discriminate S.
Qed.

Lemma login_success_needs_match_witness :
  exists user p,
    In user Demo.store1 /\
    normalizeEmail (ext := Demo.externals) (Demo.str "A@b.com")
      = inr (User.email user) /\
    Demo.str "secret1" = Some (VStr p) /\
    bcrypt_compare (Externals := Demo.externals) p (User.password user) = true.
Proof.
  exact (proj2 (login_success_needs_match (ext := Demo.externals) Demo.env 3000
                  (Demo.login (Demo.str "A@b.com") (Demo.str "secret1"))
                  Demo.store1 eq_refl)).
Defined.

(** X11. loginUser never writes to the collection, and its answer is one of
    200, 400, 401 and 500. *)
Theorem login_reads_only {ext : Externals} (env : Env) (now : Z) (b : Body.t)
  (st : Store) :
  fst (loginUser env now b st) = st /\
  (status (snd (loginUser env now b st)) = 200 \/
   status (snd (loginUser env now b st)) = 400 \/
   status (snd (loginUser env now b st)) = 401 \/
   status (snd (loginUser env now b st)) = 500).
Proof.
  split; [apply loginUser_store|]. rewrite loginUser_paths.
  destruct (normalizeEmail (Body.email b));
    [cbn [snd]; rewrite loginUser_catch_status; auto|].
  destruct (negb (credentials_supplied b)); [simpl; auto|].
  destruct (UserModel.findOne _ st) as [user|]; [|simpl; auto].
  destruct (compare_value _ _) as [|[]];
    [cbn [snd]; rewrite loginUser_catch_status; auto| |simpl; auto].
  cbn [snd]. unfold sendUser, generateToken.
  destruct (hasJwtSecret env); simpl; auto.
Qed.

(* ------------------------------------------------------------------ *)
(** ** The collection over time *)

Lemma NoDup_map_inj {A B : Type} (f : A -> B) (l : list A) (x y : A) :
  NoDup (map f l) -> In x l -> In y l -> f x = f y -> x = y.
Proof.
  induction l as [|a l IH]; simpl; intros Hnd Hx Hy E; [contradiction|].
  inversion Hnd as [|? ? Hnin Hl]; subst.
  destruct Hx as [->|Hx], Hy as [->|Hy].
  - reflexivity.
  - exfalso. apply Hnin. rewrite E. now apply in_map.
  - exfalso. apply Hnin. rewrite <- E. now apply in_map.
  - now apply IH.
Qed.

Lemma store_ok_same_email {ext : Externals} (st : Store) (u v : User.t) :
  store_ok st -> In u st -> In v st -> User.email u = User.email v -> u = v.
Proof.
  intros (Hid & Hun & _) Hu Hv E.
  apply (NoDup_map_inj User._id st u v Hid Hu Hv). now apply Hun.
Qed.

Lemma find_unique {A : Type} (p : A -> bool) (l : list A) (x : A) :
  In x l -> p x = true ->
  (forall y, In y l -> p y = true -> y = x) ->
  find p l = Some x.
Proof.
  induction l as [|a l IH]; simpl; intros Hin Hp Hu; [contradiction|].
  destruct (p a) eqn:Pa.
  - f_equal. apply Hu; [now left | exact Pa].
  - apply IH; [|exact Hp|].
    + destruct Hin as [->|Hin]; [congruence | exact Hin].
    + intros y Hy. apply Hu. now right.
Qed.

Lemma store_ok_findOne {ext : Externals} (st : Store) (u : User.t) :
  store_ok st -> In u st -> UserModel.findOne (User.email u) st = Some u.
Proof.
  intros Hok Hin. unfold UserModel.findOne. apply find_unique.
  - exact Hin.
  - apply eqb_refl.
  - intros y Hy E. apply eqb_eq in E.
    now apply (store_ok_same_email st y u Hok Hy Hin).
Qed.

Lemma store_ok_findById {ext : Externals} (st : Store) (u : User.t) :
  store_ok st -> In u st -> UserModel.findById (User._id u) st = Some u.
Proof.
  intros (Hid & _ & _) Hin. unfold UserModel.findById. apply find_unique.
  - exact Hin.
  - apply Nat.eqb_refl.
  - intros y Hy E. apply Nat.eqb_eq in E.
    now apply (NoDup_map_inj User._id st y u Hid Hy Hin).
Qed.

(** X12. In every collection the handlers can produce, identifiers are
    pairwise distinct, no two users share an email, every email is stored in
    normalised form, and looking a stored user up by its email or by its
    identifier finds that very user. *)
Theorem reachable_lookup_unambiguous {ext : Externals} (st : Store) :
  reachable st ->
  NoDup (map User._id st) /\
  (forall u v, In u st -> In v st -> User.email u = User.email v -> u = v) /\
  (forall u, In u st ->
     normalizeEmail (Some (VStr (User.email u))) = inr (User.email u)) /\
  (forall u, In u st ->
     UserModel.findOne (User.email u) st = Some u /\
     UserModel.findById (User._id u) st = Some u).
Proof.
  intros R. pose proof (reachable_store_ok st R) as Hok.
  split; [exact (proj1 Hok)|]. split; [|split].
  - intros u v. now apply store_ok_same_email.
  - exact (proj2 (proj2 Hok)).
  - intros u Hin. split.
    + now apply store_ok_findOne.
    + now apply store_ok_findById.
Qed.

Lemma reachable_lookup_unambiguous_witness :
  UserModel.findOne (js "c@d.org") Demo.store2
    = Some (Demo.user 2 "Cy" "c@d.org" "salt$secret2" "member").
Proof.
  assert (reachable (ext := Demo.externals) Demo.store2) as R
    by (apply (reach_register (ext := Demo.externals)),
              (reach_register (ext := Demo.externals)), reach_empty).
  destruct (reachable_lookup_unambiguous (ext := Demo.externals) Demo.store2 R)
    as (_ & _ & _ & L).
  exact (proj1 (L (Demo.user 2 "Cy" "c@d.org" "salt$secret2" "member")
                  (or_intror (or_introl eq_refl)))).
Defined.

(** Where [updateUserProfile] writes, and what. *)
Lemma updateUserProfile_written {ext : Externals} env salt now userId b st :
  fst (updateUserProfile env salt now userId b st) = st \/
  exists user,
    UserModel.findById userId st = Some user /\
    fst (updateUserProfile env salt now userId b st)
      = overwrite (updated_user salt b user) st.
Proof.
  rewrite updateUserProfile_paths.
  destruct (UserModel.findById userId st) as [user|] eqn:Fd; [|now left].
  destruct (assign_fields b user) as [|d0]; [now left|].
  destruct (weak_password b); [now left|].
  destruct (update_doc salt b user) as [|d] eqn:D; [now left|].
  destruct (truthy_opt (Body.email b) && _); [now left|].
  destruct (UserModel.invalid d); [now left|].
  destruct (UserModel.exists_other _ _ st); [now left|].
  right. exists user. unfold updated_user. rewrite D. split; reflexivity.
Qed.

Lemma updateUserProfile_members {ext : Externals} env salt now userId b st u :
  In u (fst (updateUserProfile env salt now userId b st)) ->
  In u st \/
  exists user, In user st /\ User._id user = userId /\ u = updated_user salt b user.
Proof.
  destruct (updateUserProfile_written env salt now userId b st)
    as [->|(user & Fd & ->)]; [now left|].
  destruct (findById_some userId st user Fd) as [Hin Hid].
  intros H. apply overwrite_in in H. destruct H as [->|[H _]].
  - right. exists user. repeat split; assumption.
  - now left.
Qed.

(** X13. In every collection the handlers can produce, each user's role is
    admin or member. *)
Theorem reachable_roles {ext : Externals} (st : Store) :
  reachable st ->
  forall u, In u st -> User.role u = js "admin" \/ User.role u = js "member".
Proof.
  induction 1 as [|env salt now b st _ IH|env now b st _ IH
                  |env salt now userId b st _ IH];
    intros u Hin.
  - destruct Hin.
  - destruct (registerUser_store env salt now b st) as [E|E]; rewrite E in Hin.
    + now apply IH.
    + apply in_app_or in Hin. destruct Hin as [Hin|[<-|[]]]; [now apply IH|].
      unfold new_user. cbn [User.role].
      destruct (token_supplied b && token_matches env b); [now left | now right].
  - rewrite loginUser_store in Hin. now apply IH.
  - apply updateUserProfile_members in Hin.
    destruct Hin as [Hin|(user & Hin & _ & ->)]; [now apply IH|].
    rewrite updated_user_role. now apply IH.
Qed.

Lemma reachable_roles_witness :
  User.role (Demo.user 2 "Cy" "c@d.org" "salt$secret2" "member") = js "admin" \/
  User.role (Demo.user 2 "Cy" "c@d.org" "salt$secret2" "member") = js "member".
Proof.
  assert (reachable (ext := Demo.externals) Demo.store2) as R
    by (apply (reach_register (ext := Demo.externals)),
              (reach_register (ext := Demo.externals)), reach_empty).
  exact (reachable_roles (ext := Demo.externals) Demo.store2 R
           (Demo.user 2 "Cy" "c@d.org" "salt$secret2" "member")
           (or_intror (or_introl eq_refl))).
Defined.

(* ------------------------------------------------------------------ *)
(** ** updateUserProfile and getUserProfile *)

(** X14. updateUserProfile never adds, removes or renumbers a user, and
    never changes a role: the identifiers of the collection are the same
    list afterwards, and every user afterwards has the identifier and the
    role of a user before. *)
Theorem update_keeps_ids_and_roles {ext : Externals} (env : Env)
  (salt : jsstring) (now : Z) (userId : nat) (b : Body.t) (st : Store) :
  map User._id (fst (updateUserProfile env salt now userId b st))
    = map User._id st /\
  forall u', In u' (fst (updateUserProfile env salt now userId b st)) ->
    exists u, In u st /\ User._id u = User._id u' /\ User.role u = User.role u'.
Proof.
  split.
  - destruct (updateUserProfile_written env salt now userId b st)
      as [->|(user & _ & ->)]; [reflexivity|].
    apply overwrite_ids.
  - intros u' Hin. apply updateUserProfile_members in Hin.
    destruct Hin as [Hin|(user & Hin & _ & ->)].
    + exists u'. repeat split. exact Hin.
    + exists user. split; [exact Hin|].
      now rewrite updated_user_id, updated_user_role.
Qed.

Lemma overwrite_same_doc (st : Store) (user : User.t) :
  NoDup (map User._id st) -> In user st -> overwrite user st = st.
Proof.
  intros Hnd Hin. unfold overwrite.
  rewrite <- (map_id st) at 2. apply map_ext_in. intros v Hv.
  destruct (Nat.eqb (User._id v) (User._id user)) eqn:E; [|reflexivity].
  apply Nat.eqb_eq in E. symmetry.
  now apply (NoDup_map_inj User._id st v user Hnd Hv Hin).
Qed.

(** X15. A profile update that supplies nothing (each of name, email and
    password absent or empty, profileImageUrl absent) leaves a collection the
    handlers have produced exactly as it was. *)
Theorem update_nothing_changes_nothing {ext : Externals} (env : Env)
  (salt : jsstring) (now : Z) (userId : nat) (b : Body.t) (st : Store) :
  reachable st ->
  truthy_opt (Body.name b) = false ->
  truthy_opt (Body.email b) = false ->
  truthy_opt (Body.password b) = false ->
  Body.profileImageUrl b = None ->
  fst (updateUserProfile env salt now userId b st) = st.
Proof.
  intros R Hn He Hp Hi. pose proof (reachable_store_ok st R) as Hok.
  destruct (updateUserProfile_written env salt now userId b st)
    as [E|(user & Fd & E)]; [exact E|].
  rewrite E. destruct (findById_some userId st user Fd) as [Hin _].
  assert (updated_user salt b user = user) as ->.
  { unfold updated_user, update_doc, assign_fields.
    now rewrite Hn, He, Hp, Hi. }
  apply overwrite_same_doc; [exact (proj1 Hok) | exact Hin].
Qed.

Lemma update_nothing_changes_nothing_witness :
  fst (updateUserProfile (ext := Demo.externals) Demo.env (js "pepper") 3000 2
         (Body.mk (Demo.str "") (Some VNull) (Some (VNum PrimFloat.zero)) None
            (Demo.str "some_key"))
         Demo.store2)
    = Demo.store2.
Proof.
  apply (update_nothing_changes_nothing (ext := Demo.externals) Demo.env
           (js "pepper") 3000 2
           (Body.mk (Demo.str "") (Some VNull) (Some (VNum PrimFloat.zero)) None
              (Demo.str "some_key"))
           Demo.store2).
  - apply (reach_register (ext := Demo.externals)),
          (reach_register (ext := Demo.externals)), reach_empty.
  - reflexivity.
  - reflexivity.
  - reflexivity.
  - reflexivity.
Defined.

Lemma updateUserProfile_status_200 {ext : Externals} env salt now userId b st :
  status (snd (updateUserProfile env salt now userId b st)) = 200 ->
  hasJwtSecret env = true /\
  exists user d,
    UserModel.findById userId st = Some user /\
    update_doc salt b user = inr d /\
    UserModel.members d = updated_user salt b user /\
    updateUserProfile env salt now userId b st =
      (overwrite (updated_user salt b user) st,
       answer 200 updateUserProfile_catch
         (sendUser env now (updated_user salt b user))).
Proof.
  assert (forall err, status (updateUserProfile_catch err) <> 200) as Hc
    by (intros err; destruct (updateUserProfile_catch_status err) as [C|C];
        rewrite C; discriminate).
  rewrite updateUserProfile_paths.
  destruct (UserModel.findById userId st) as [user|]; [|discriminate].
  destruct (assign_fields b user) as [|d0];
    [intros S; now apply Hc in S|].
  destruct (weak_password b); [discriminate|].
  destruct (update_doc salt b user) as [|d] eqn:D;
    [intros S; now apply Hc in S|].
  destruct (truthy_opt (Body.email b) && _); [discriminate|].
  destruct (UserModel.invalid d); [intros S; now apply Hc in S|].
  destruct (UserModel.exists_other _ _ st); [discriminate|].
  intros S. split.
  - destruct (hasJwtSecret env) eqn:J; [reflexivity|].
    cbn [snd] in S. rewrite (sendUser_no_secret env now _ J) in S.
    now apply Hc in S.
  - exists user, d. unfold updated_user. rewrite D. repeat split.
Qed.

Lemma update_doc_password {ext : Externals} salt b user d :
  update_doc salt b user = inr d ->
  truthy_opt (Body.password b) = true ->
  hash_value (or_empty (Body.password b)) salt
    = inr (User.password (UserModel.members d)).
Proof.
  unfold update_doc. destruct (assign_fields b user) as [|d0]; [discriminate|].
  intros D P. rewrite P in D.
  destruct (hash_value _ salt) as [|h]; [discriminate|].
  injection D as <-. reflexivity.
Qed.

(** X16. Update, then log in.  After a profile update answered 200 on a
    collection the handlers have produced, in which a new password was
    supplied, a login with the user's email as it now stands (not the empty
    string) and the new password is answered 200 for the updated user,
    provided bcrypt accepts the password against the hash it made of it: the
    body names the same identifier, name, email, role and profile image as
    the update's, with a token signed when the login is served. *)
Theorem update_then_login {ext : Externals} (env : Env) (salt : jsstring)
  (now1 now2 : Z) (userId : nat) (b : Body.t) (st : Store) (user : User.t) :
  reachable st ->
  UserModel.findById userId st = Some user ->
  status (snd (updateUserProfile env salt now1 userId b st)) = 200 ->
  truthy_opt (Body.password b) = true ->
  (forall p, Body.password b = Some (VStr p) ->
             bcrypt_compare p (bcrypt_hash p salt) = true) ->
  User.email (updated_user salt b user) <> [] ->
  exists secret,
    JWT_SECRET env = Some secret /\
    snd (updateUserProfile env salt now1 userId b st) =
      mkResponse 200
        [ ("_id", JObjectId (User._id (updated_user salt b user)));
          ("name", JString (User.name (updated_user salt b user)));
          ("email", JString (User.email (updated_user salt b user)));
          ("role", JString (User.role (updated_user salt b user)));
          ("profileImageUrl",
             JValue (User.profileImageUrl (updated_user salt b user)));
          ("token", JString (jwt_sign (User._id (updated_user salt b user))
                               secret (js "7d") now1)) ] /\
    loginUser env now2
      (Body.mk None (Some (VStr (User.email (updated_user salt b user))))
         (Body.password b) None None)
      (fst (updateUserProfile env salt now1 userId b st))
    = (fst (updateUserProfile env salt now1 userId b st),
       mkResponse 200
        [ ("_id", JObjectId (User._id (updated_user salt b user)));
          ("name", JString (User.name (updated_user salt b user)));
          ("email", JString (User.email (updated_user salt b user)));
          ("role", JString (User.role (updated_user salt b user)));
          ("profileImageUrl",
             JValue (User.profileImageUrl (updated_user salt b user)));
          ("token", JString (jwt_sign (User._id (updated_user salt b user))
                               secret (js "7d") now2)) ]).
Proof.
  intros R Fd S P C NE.
  pose proof (reach_update env salt now1 userId b st R) as R'.
  pose proof (reachable_store_ok _ R') as Hok'.
  destruct (updateUserProfile_status_200 env salt now1 userId b st S)
    as (J & user' & d & Fd' & D & Hd & E).
  rewrite Fd in Fd'. injection Fd' as <-.
  destruct (findById_some userId st user Fd) as [Hin Hid].
  pose proof (update_doc_password salt b user d D P) as Hh. rewrite Hd in Hh.
  rewrite E in Hok'. cbn [fst] in Hok'. rewrite E. cbn [fst snd].
  set (doc := updated_user salt b user) in *.
  assert (In doc (overwrite doc st)) as Hdoc.
  { apply (overwrite_has_doc doc st user Hin). unfold doc.
    now rewrite updated_user_id. }
  destruct (sendUser_with_secret env now1 doc J) as (secret & Hs & Hsend1).
  destruct (sendUser_with_secret env now2 doc J) as (secret' & Hs' & Hsend2).
  rewrite Hs in Hs'. injection Hs' as <-.
  exists secret. split; [exact Hs|].
  rewrite Hsend1. split; [reflexivity|].
  assert (truthy_val (or_empty (Body.password b)) = true) as Tp
    by now rewrite or_empty_truthy.
  destruct (hashed_password_is_string _ salt _ Tp Hh) as (p & Ep & Op & Pw).
  assert (normalizeEmail (Some (VStr (User.email doc))) = inr (User.email doc))
    as N by (apply (proj2 (proj2 Hok')); exact Hdoc).
  rewrite loginUser_paths. unfold credentials_supplied.
  cbn [Body.email Body.password]. rewrite N.
  assert (JsString.truthy (User.email doc) = true) as T
    by now apply truthy_nonempty.
  rewrite T, Tp. cbn [negb andb].
  rewrite (store_ok_findOne _ doc Hok' Hdoc).
  rewrite Op, Pw. cbn [compare_value]. rewrite (C p Ep).
  cbn [answer]. now rewrite Hsend2.
Qed.

Lemma update_then_login_witness :
  status
    (snd (loginUser (ext := Demo.externals) Demo.env 4000
            (Body.mk None (Demo.str "cy@d.org") (Demo.str "123456") None None)
            (fst (updateUserProfile (ext := Demo.externals) Demo.env
                    (js "pepper") 3000 2
                    (Body.mk None (Demo.str " Cy@D.org ") (Demo.str "123456")
                       None None)
                    Demo.store2)))) = 200.
Proof.
  assert (reachable (ext := Demo.externals) Demo.store2) as R
    by (apply (reach_register (ext := Demo.externals)),
              (reach_register (ext := Demo.externals)), reach_empty).
  assert (forall p, Demo.str "123456" = Some (VStr p) ->
                    bcrypt_compare (Externals := Demo.externals) p
                      (bcrypt_hash (Externals := Demo.externals) p (js "pepper"))
                    = true) as C
    by (intros p Ep; injection Ep as <-; reflexivity).
  assert (js "cy@d.org" <> []) as NE by discriminate.
  destruct (update_then_login (ext := Demo.externals) Demo.env (js "pepper")
              3000 4000 2
              (Body.mk None (Demo.str " Cy@D.org ") (Demo.str "123456") None None)
              Demo.store2
              (Demo.user 2 "Cy" "c@d.org" "salt$secret2" "member")
              R eq_refl eq_refl eq_refl C NE)
    as (secret & _ & _ & L).
  exact (f_equal (fun r => status (snd r)) L).
Defined.

(** X17. getUserProfile never writes to the collection and needs no signing
    secret; it answers 200 exactly when a user with the given identifier is
    stored, and 404 otherwise; what it sends then are the fields of that
    user, with no member named password or token. *)
Theorem profile_route_reads_only (userId : nat) (st : Store) :
  fst (getUserProfile userId st) = st /\
  member "password" (json (snd (getUserProfile userId st))) = None /\
  member "token" (json (snd (getUserProfile userId st))) = None /\
  ((exists user, In user st /\ User._id user = userId /\
                 snd (getUserProfile userId st) = mkResponse 200 (profile_json user)) \/
   ((forall user, In user st -> User._id user <> userId) /\
    snd (getUserProfile userId st) = reply 404 "NOT_FOUND" "User not found")).
Proof.
  unfold getUserProfile, try_catch, getUserProfile_try, bind, query, ret.
  destruct (UserModel.findById userId st) as [user|] eqn:Fd; simpl.
  - repeat split. left. exists user.
    unfold UserModel.findById in Fd. apply find_some in Fd.
    destruct Fd as [Hin Hid]. apply Nat.eqb_eq in Hid.
    repeat split; assumption.
  - repeat split. right. split; [|reflexivity].
    intros user Hin Hid. unfold UserModel.findById in Fd.
    apply (find_none _ _ Fd) in Hin. apply Nat.eqb_neq in Hin. contradiction.
Qed.

(** X18. updateUserProfile writes only when it answers 200 or 500.  Either
    the collection is as it was, and the answer is 400, 404, 409 or 500; or
    the document of the user is overwritten, and the answer is 200 when a
    signing secret is configured and 500 SERVER when none is, the update
    staying saved. *)
Theorem update_outcomes {ext : Externals} (env : Env) (salt : jsstring)
  (now : Z) (userId : nat) (b : Body.t) (st : Store) :
  (fst (updateUserProfile env salt now userId b st) = st /\
   (status (snd (updateUserProfile env salt now userId b st)) = 400 \/
    status (snd (updateUserProfile env salt now userId b st)) = 404 \/
    status (snd (updateUserProfile env salt now userId b st)) = 409 \/
    status (snd (updateUserProfile env salt now userId b st)) = 500)) \/
  (exists user,
     UserModel.findById userId st = Some user /\
     fst (updateUserProfile env salt now userId b st)
       = overwrite (updated_user salt b user) st /\
     ((hasJwtSecret env = true /\
       status (snd (updateUserProfile env salt now userId b st)) = 200) \/
      (hasJwtSecret env = false /\
       snd (updateUserProfile env salt now userId b st)
         = reply 500 "SERVER" "Server error"))).
Proof.
  assert (forall err, status (updateUserProfile_catch err) = 400 \/
                      status (updateUserProfile_catch err) = 404 \/
                      status (updateUserProfile_catch err) = 409 \/
                      status (updateUserProfile_catch err) = 500) as Hc
    by (intros err; destruct (updateUserProfile_catch_status err); auto).
  rewrite updateUserProfile_paths.
  destruct (UserModel.findById userId st) as [user|]; [|left; simpl; auto].
  destruct (assign_fields b user) as [|d0];
    [left; split; [reflexivity | apply Hc]|].
  destruct (weak_password b); [left; simpl; auto|].
  destruct (update_doc salt b user) as [|d] eqn:D;
    [left; split; [reflexivity | apply Hc]|].
  destruct (truthy_opt (Body.email b) && _); [left; simpl; auto|].
  destruct (UserModel.invalid d); [left; split; [reflexivity | apply Hc]|].
  destruct (UserModel.exists_other _ _ st); [left; simpl; auto|].
  right. exists user. unfold updated_user. rewrite D.
  split; [reflexivity|]. split; [reflexivity|]. cbn [snd].
  destruct (hasJwtSecret env) eqn:J.
  - left. split; [reflexivity|].
    destruct (sendUser_with_secret env now (UserModel.members d) J)
      as (secret & _ & ->).
    reflexivity.
  - right. split; [reflexivity|].
    now rewrite (sendUser_no_secret env now _ J).
Qed.

(** X19. Changing the email releases the old one.  When a profile update
    made of strings, on a collection the handlers have produced, passes the
    password and the conflict check and gives the user another email, no
    stored user has the old email afterwards, and the new email finds the
    updated user. *)
Theorem update_releases_old_email {ext : Externals} (env : Env)
  (salt : jsstring) (now : Z) (userId : nat) (b : Body.t) (st : Store)
  (user : User.t) :
  reachable st ->
  UserModel.findById userId st = Some user ->
  strings_or_absent b = true ->
  weak_password b = false ->
  email_taken userId b st = false ->
  User.email (updated_user salt b user) <> User.email user ->
  UserModel.exists_email (User.email user)
    (fst (updateUserProfile env salt now userId b st)) = false /\
  UserModel.findOne (User.email (updated_user salt b user))
    (fst (updateUserProfile env salt now userId b st))
    = Some (updated_user salt b user).
Proof.
  intros R Fd S W T NE.
  pose proof (reachable_store_ok st R) as Hok.
  pose proof (reachable_store_ok _ (reach_update env salt now userId b st R))
    as Hok'.
  destruct (findById_some userId st user Fd) as [Hin Hid].
  destruct (update_of_strings salt b user S) as ((d0 & A) & D & _).
  assert (fst (updateUserProfile env salt now userId b st)
          = overwrite (updated_user salt b user) st) as E.
  { rewrite updateUserProfile_paths, Fd, A, W, D.
    rewrite (conflict_check_is_email_taken salt userId b st user _ Fd D), T.
    cbn [UserModel.invalid].
    now rewrite (save_passes_index salt userId b st user _ Hok Fd D T). }
  rewrite E in *. split.
  - destruct (UserModel.exists_email (User.email user)
                (overwrite (updated_user salt b user) st)) eqn:X; [|reflexivity].
    unfold UserModel.exists_email in X. apply existsb_exists in X.
    destruct X as (v & Hv & Ev). apply eqb_eq in Ev.
    apply overwrite_in in Hv. destruct Hv as [->|[Hv Nv]].
    + contradiction.
    + exfalso. apply Nv. rewrite updated_user_id.
      now rewrite (store_ok_same_email st v user Hok Hv Hin Ev).
  - apply (store_ok_findOne _ _ Hok').
    apply (overwrite_has_doc _ st user Hin). now rewrite updated_user_id.
Qed.

Lemma update_releases_old_email_witness :
  UserModel.exists_email (js "c@d.org")
    (fst (updateUserProfile (ext := Demo.externals) Demo.env (js "pepper") 3000 2
            (Body.mk None (Demo.str "Cy@New.org") None None None) Demo.store2))
    = false.
Proof.
  assert (reachable (ext := Demo.externals) Demo.store2) as R
    by (apply (reach_register (ext := Demo.externals)),
              (reach_register (ext := Demo.externals)), reach_empty).
  assert (js "cy@new.org" <> js "c@d.org") as NE by discriminate.
  exact (proj1 (update_releases_old_email (ext := Demo.externals) Demo.env
                  (js "pepper") 3000 2
                  (Body.mk None (Demo.str "Cy@New.org") None None None)
                  Demo.store2
                  (Demo.user 2 "Cy" "c@d.org" "salt$secret2" "member")
                  R eq_refl eq_refl eq_refl eq_refl NE)).
Defined.
